(** * summary_function: the extraction pipeline of [main.py]

    A shallow embedding of [synthesize_and_extract] and [process_denuncias]
    and the properties of the retry loop, the fence stripping, the weekday
    label, the record enrichment and the batched write loop.

    Conventions.
    - A Python [str] is a [string]: the UTF-8 bytes of the text.  Every
      literal the source slices by ("```json", "```") is ASCII, so byte
      offsets and character offsets agree where the source slices.  Where
      the library reads characters (the digits of a date) the code points
      are decoded from the bytes.
    - A Python value is a [pyval]; a [dict] with string keys is a
      [gmap string pyval].
    - Code that may raise runs in the monad [M]: the state is the [world]
      (model calls made, [time.sleep] log, committed batches) and the result
      is [Ok v] or [Raise e].  An exception is represented by [str(e)], the
      only thing the source reads from it.
    - The services and library functions the source calls but does not
      define (the language model, [json.loads], [str.upper], the secret
      manager, the source stream, the store's [batch.set] and commit) are
      the fields of an [externals] record, over which every definition and
      theorem is parametric.
    - [print] and [traceback.print_exc] write to the log only and are left
      out. *)

From Stdlib Require Import ZArith String Ascii List Lia Bool.
From stdpp Require Import gmap strings list fin_maps pretty.
Import ListNotations.
Open Scope string_scope.
Set Warnings "-register-all".

(** ** Python values *)

Inductive pyval : Type :=
| PNone
| PBool (b : bool)
| PInt (n : Z)
| PStr (s : string)
| PList (l : list pyval)
| PDict (d : gmap string pyval)
| PObj (cls : string) (truth : bool).
(** [PObj cls truth] is any other object (a float, a store timestamp, ...):
    its class name and its truth value are all the source can observe. *)

(** [bool(v)], as tested by [if v:] and [if not v:]. *)
Definition py_truthy (v : pyval) : bool :=
  match v with
  | PNone => false
  | PBool b => b
  | PInt n => negb (n =? 0)%Z
  | PStr s => negb (s =? "")
  | PList l => match l with [] => false | _ :: _ => true end
  | PDict d => negb (bool_decide (dom d = ∅))
  | PObj _ truth => truth
  end.

(** [type(v).__name__], used in the text of an [AttributeError]. *)
Definition type_name (v : pyval) : string :=
  match v with
  | PNone => "NoneType"
  | PBool _ => "bool"
  | PInt _ => "int"
  | PStr _ => "str"
  | PList _ => "list"
  | PDict _ => "dict"
  | PObj cls _ => cls
  end.

(** [d.get(k, default)] on a dict. *)
Definition dict_get (d : gmap string pyval) (k : string) (dflt : pyval) : pyval :=
  default dflt (d !! k).

(** ** Strings *)

Module Str.

(** [s.startswith(p)] *)
Fixpoint startswith (p s : string) : bool :=
  match p with
  | EmptyString => true
  | String a p' =>
      match s with
      | EmptyString => false
      | String b s' => Ascii.eqb a b && startswith p' s'
      end
  end.

(** [s.endswith(q)]: [q] is [s] or a suffix of the tail of [s]. *)
Fixpoint endswith (q s : string) : bool :=
  (q =? s) ||
  match s with
  | EmptyString => false
  | String _ r => endswith q r
  end.

(** [sub in s] *)
Fixpoint contains (sub s : string) : bool :=
  startswith sub s ||
  match s with
  | EmptyString => false
  | String _ r => contains sub r
  end.

(** [s[n:]] *)
Fixpoint drop (n : nat) (s : string) : string :=
  match n, s with
  | O, _ => s
  | S _, EmptyString => EmptyString
  | S n', String _ r => drop n' r
  end.

(** [s[:n]] for [n >= 0] *)
Fixpoint take (n : nat) (s : string) : string :=
  match n, s with
  | O, _ => EmptyString
  | S _, EmptyString => EmptyString
  | S n', String c r => String c (take n' r)
  end.

(** [s[:-n]] for [n > 0]: all but the last [n] characters, empty when
    [s] is shorter than [n]. *)
Definition drop_last (n : nat) (s : string) : string :=
  take (String.length s - n) s.

(** the last character of [s] *)
Fixpoint last_char (s : string) : option ascii :=
  match s with
  | EmptyString => None
  | String c r => match r with EmptyString => Some c | String _ _ => last_char r end
  end.

Definition of_codes (l : list nat) : string :=
  string_of_list_ascii (map ascii_of_nat l).

(** The characters [str.strip()] removes (those for which [str.isspace]
    holds), each as its UTF-8 encoding: U+0009..U+000D, U+001C..U+001F,
    U+0020, U+0085, U+00A0, U+1680, U+2000..U+200A, U+2028, U+2029,
    U+202F, U+205F, U+3000. *)
Definition whitespace : list string :=
  map of_codes
    [ [9]; [10]; [11]; [12]; [13]; [28]; [29]; [30]; [31]; [32];
      [194; 133]; [194; 160]; [225; 154; 128];
      [226; 128; 128]; [226; 128; 129]; [226; 128; 130]; [226; 128; 131];
      [226; 128; 132]; [226; 128; 133]; [226; 128; 134]; [226; 128; 135];
      [226; 128; 136]; [226; 128; 137]; [226; 128; 138];
      [226; 128; 168]; [226; 128; 169]; [226; 128; 175];
      [226; 129; 159]; [227; 128; 128] ].

(** no whitespace character ends with the byte [c] *)
Definition ends_no_whitespace (c : ascii) : bool :=
  forallb (fun w => match last_char w with
                    | Some c' => negb (Ascii.eqb c' c)
                    | None => false
                    end) whitespace.

(** [s] without one leading whitespace character, if it starts with one. *)
Definition lstrip1 (s : string) : option string :=
  match List.find (fun w => startswith w s) whitespace with
  | Some w => Some (drop (String.length w) s)
  | None => None
  end.

(** [s] without one trailing whitespace character, if it ends with one. *)
Definition rstrip1 (s : string) : option string :=
  match List.find (fun w => endswith w s) whitespace with
  | Some w => Some (drop_last (String.length w) s)
  | None => None
  end.

Fixpoint iter_strip (step : string -> option string) (fuel : nat) (s : string) : string :=
  match fuel with
  | O => s
  | S fuel' =>
      match step s with
      | Some s' => iter_strip step fuel' s'
      | None => s
      end
  end.

(** [s.strip()]: every step removes at least one byte, so [length s]
    steps are enough. *)
Definition strip (s : string) : string :=
  let l := iter_strip lstrip1 (String.length s) s in
  iter_strip rstrip1 (String.length l) l.

(** [str.upper] on ASCII text: the letters a..z are mapped to A..Z; this
    is what [str.upper] does on a string of ASCII characters. *)
Definition ascii_upper_char (c : ascii) : ascii :=
  let n := nat_of_ascii c in
  if (97 <=? n)%nat && (n <=? 122)%nat then ascii_of_nat (n - 32) else c.

Fixpoint ascii_upper (s : string) : string :=
  match s with
  | EmptyString => EmptyString
  | String c r => String (ascii_upper_char c) (ascii_upper r)
  end.

End Str.

(** ** Dates: [datetime.strptime(report_date, "%m/%d/%Y")] and [weekday()]

    [_strptime] turns the format into the regular expression
    [(?P<m>1[0-2]|0[1-9]|[1-9])/(?P<d>3[0-1]|[1-2]\d|0[1-9]|[1-9]| [1-9])/(?P<Y>\d\d\d\d)],
    matches it at the start of the text, refuses text left over after the
    match, and builds the date, which refuses a day the month does not
    have and the year 0.  A group is modelled by the list of its matches in
    the order the regular expression tries them, so that sequencing is
    backtracking.  The classes written with ASCII digits match these
    digits only; [\d] matches any Unicode decimal digit, and [int] reads
    any of them: the decimal digits are those of Unicode 14.0 (the
    database of Python 3.11), read from the UTF-8 text. *)

Module Date.

Definition between (lo hi : nat) (c : ascii) : bool :=
  let n := nat_of_ascii c in (lo <=? n)%nat && (n <=? hi)%nat.

Definition is_char (x : ascii) (c : ascii) : bool := Ascii.eqb x c.

(** the six low bits of a continuation byte [10xxxxxx] *)
Definition continuation (c : ascii) : option N :=
  let n := N_of_ascii c in
  if (128 <=? n)%N && (n <=? 191)%N then Some (n - 128)%N else None.

(** The code point at the head of a UTF-8 text, and the number of bytes
    of its encoding. *)
Definition decode (s : string) : option (N * nat) :=
  match s with
  | EmptyString => None
  | String a r =>
      let n := N_of_ascii a in
      if (n <? 128)%N then Some (n, 1%nat)
      else
        match r with
        | String b r1 =>
            match continuation b with
            | None => None
            | Some x1 =>
                if (192 <=? n)%N && (n <=? 223)%N
                then Some ((n - 192) * 64 + x1, 2%nat)%N
                else
                  match r1 with
                  | String c r2 =>
                      match continuation c with
                      | None => None
                      | Some x2 =>
                          if (224 <=? n)%N && (n <=? 239)%N
                          then Some ((n - 224) * 4096 + x1 * 64 + x2, 3%nat)%N
                          else
                            match r2 with
                            | String d _ =>
                                match continuation d with
                                | None => None
                                | Some x3 =>
                                    if (240 <=? n)%N && (n <=? 247)%N
                                    then Some ((n - 240) * 262144 + x1 * 4096
                                               + x2 * 64 + x3, 4%nat)%N
                                    else None
                                end
                            | EmptyString => None
                            end
                      end
                  | EmptyString => None
                  end
            end
        | EmptyString => None
        end
  end.

(** The code points of the digits zero of Unicode 14.0: each is followed
    by the digits one to nine of its script. *)
Definition decimal_zeros : list N :=
  [
    48; 1632; 1776; 1984; 2406; 2534; 2662; 2790;
    2918; 3046; 3174; 3302; 3430; 3558; 3664; 3792;
    3872; 4160; 4240; 6112; 6160; 6470; 6608; 6784;
    6800; 6992; 7088; 7232; 7248; 42528; 43216; 43264;
    43472; 43504; 43600; 44016; 65296; 66720; 68912; 69734;
    69872; 69942; 70096; 70384; 70736; 70864; 71248; 71360;
    71472; 71904; 72016; 72784; 73040; 73120; 92768; 92864;
    93008; 120782; 120792; 120802; 120812; 120822; 123200; 123632;
    125264; 130032
  ]%N.

(** [unicodedata.decimal]: the value of a decimal digit *)
Definition decimal_value (cp : N) : option Z :=
  match List.find (fun z => (z <=? cp)%N && (cp <? z + 10)%N) decimal_zeros with
  | Some z => Some (Z.of_N (cp - z))
  | None => None
  end.

(** one character of the class [p] of ASCII characters *)
Definition one (p : ascii -> bool) (s : string) : list (string * string) :=
  match s with
  | String c r => if p c then [(String c "", r)] else []
  | EmptyString => []
  end.

(** [\d]: one decimal digit *)
Definition digit (s : string) : list (string * string) :=
  match decode s with
  | Some (cp, n) =>
      match decimal_value cp with
      | Some _ => [(Str.take n s, Str.drop n s)]
      | None => []
      end
  | None => []
  end.

(** a match of [m1] followed by a match of [m2] *)
Definition then_ (m1 m2 : string -> list (string * string)) (s : string)
    : list (string * string) :=
  flat_map (fun '(a, r) => map (fun '(b, r') => (a ++ b, r')) (m2 r)) (m1 s).

(** [int(text)] on the text a group matched: decimal digits, after at
    most one space. *)
Fixpoint int_acc (fuel : nat) (acc : Z) (s : string) : Z :=
  match fuel with
  | O => acc
  | S fuel' =>
      match decode s with
      | Some (cp, n) =>
          match decimal_value cp with
          | Some d => int_acc fuel' (10 * acc + d) (Str.drop n s)
          | None => int_acc fuel' acc (Str.drop n s)
          end
      | None => acc
      end
  end.
Definition py_int (s : string) : Z := int_acc (String.length s) 0 s.

(** [1[0-2]|0[1-9]|[1-9]] *)
Definition group_m (s : string) : list (string * string) :=
  then_ (one (is_char "1")) (one (between 48 50)) s
  ++ then_ (one (is_char "0")) (one (between 49 57)) s
  ++ one (between 49 57) s.

(** [3[0-1]|[1-2]\d|0[1-9]|[1-9]| [1-9]] *)
Definition group_d (s : string) : list (string * string) :=
  then_ (one (is_char "3")) (one (between 48 49)) s
  ++ then_ (one (between 49 50)) digit s
  ++ then_ (one (is_char "0")) (one (between 49 57)) s
  ++ one (between 49 57) s
  ++ then_ (one (is_char " ")) (one (between 49 57)) s.

(** [\d\d\d\d] *)
Definition group_Y (s : string) : list (string * string) :=
  then_ digit (then_ digit (then_ digit digit)) s.

Definition slash (s : string) : list string :=
  match s with
  | String c r => if is_char "/" c then [r] else []
  | EmptyString => []
  end.

(** All the ways the expression matches a prefix of [s], first match
    first: month text, day text, year text and the text left over. *)
Definition matches (s : string) : list (string * string * string * string) :=
  flat_map (fun '(m, r1) =>
    flat_map (fun r2 =>
      flat_map (fun '(d, r3) =>
        flat_map (fun r4 =>
          map (fun '(y, r5) => (m, d, y, r5)) (group_Y r4))
        (slash r3))
      (group_d r2))
    (slash r1))
  (group_m s).

(** [datetime._is_leap] *)
Definition is_leap (year : Z) : bool :=
  ((year mod 4 =? 0) && (negb (year mod 100 =? 0) || (year mod 400 =? 0)))%Z.

(** [datetime._days_in_month] *)
Definition days_in_month (year month : Z) : Z :=
  if (month =? 2)%Z && is_leap year then 29
  else nth (Z.to_nat month) [0; 31; 28; 31; 30; 31; 30; 31; 31; 30; 31; 30; 31]%Z 0%Z.

(** [datetime._days_before_year] *)
Definition days_before_year (year : Z) : Z :=
  let y := (year - 1)%Z in (y * 365 + y / 4 - y / 100 + y / 400)%Z.

(** [datetime._days_before_month] *)
Definition days_before_month (year month : Z) : Z :=
  (nth (Z.to_nat month) [0; 0; 31; 59; 90; 120; 151; 181; 212; 243; 273; 304; 334] 0
   + (if (2 <? month) && is_leap year then 1 else 0))%Z.

Record date := mkdate { year : Z; month : Z; day : Z }.

(** the checks of the [date] constructor *)
Definition valid (y m d : Z) : bool :=
  ((1 <=? y) && (y <=? 9999) && (1 <=? m) && (m <=? 12)
   && (1 <=? d) && (d <=? days_in_month y m))%Z.

(** [datetime.strptime(s, "%m/%d/%Y")]: [None] stands for the
    [ValueError] it raises. *)
Definition strptime (s : string) : option date :=
  match matches s with
  | (m, d, y, rest) :: _ =>
      if rest =? "" then
        let '(yv, mv, dv) := (py_int y, py_int m, py_int d) in
        if valid yv mv dv then Some (mkdate yv mv dv) else None
      else None
  | [] => None
  end.

(** [date.toordinal] *)
Definition toordinal (dt : date) : Z :=
  (days_before_year (year dt) + days_before_month (year dt) (month dt) + day dt)%Z.

(** [date.weekday]: Monday is 0. *)
Definition weekday (dt : date) : Z := ((toordinal dt + 6) mod 7)%Z.

End Date.

(** Lines 44-51: the weekday label.  The bare [except:] catches whatever
    [strptime] raises: [ValueError] for text that does not parse,
    [TypeError] for a value that is not a [str]. *)
Definition days : list string :=
  ["Lunes"; "Martes"; "Miércoles"; "Jueves"; "Viernes"; "Sábado"; "Domingo"].

Definition day_of_week_str (report_date : pyval) : string :=
  match report_date with
  | PStr s =>
      match Date.strptime s with
      | Some dt =>
          match days !! Z.to_nat (Date.weekday dt) with
          | Some label => label
          | None => "Desconocido"   (* IndexError, caught as well *)
          end
      | None => "Desconocido"
      end
  | _ => "Desconocido"
  end.

(** ** Effects: exceptions and the world *)

(** An exception, represented by its text [str(e)].  Only exceptions that
    [except Exception] catches are modelled. *)
Definition exn : Type := string.

Inductive result (A : Type) : Type :=
| Ok (a : A)
| Raise (e : exn).
Arguments Ok {A} a.
Arguments Raise {A} e.

(** A staged write [batch.set(dest_ref, doc_data)]: the document identifier
    in the destination collection and the data. *)
Definition write : Type := string * gmap string pyval.

Record world : Type := mkworld {
  calls : nat;                 (* calls of [model.generate_content] so far *)
  sleeps : list Z;             (* arguments of [time.sleep], oldest first *)
  commits : list (list write)  (* batches committed, oldest first *)
}.

Definition M (A : Type) : Type := world -> result A * world.

Definition ret {A} (a : A) : M A := fun w => (Ok a, w).
Definition raise {A} (e : exn) : M A := fun w => (Raise e, w).

Definition bind {A B} (c : M A) (k : A -> M B) : M B :=
  fun w =>
    match c w with
    | (Ok a, w') => k a w'
    | (Raise e, w') => (Raise e, w')
    end.

(** [try: c  except Exception as e: h e] *)
Definition try_except {A} (c : M A) (h : exn -> M A) : M A :=
  fun w =>
    match c w with
    | (Ok a, w') => (Ok a, w')
    | (Raise e, w') => h e w'
    end.

Definition lift {A} (r : result A) : M A := fun w => (r, w).

Notation "x <- c ;; k" := (bind c (fun x => k))
  (at level 100, c at next level, right associativity).
Notation "c ;;; k" := (bind c (fun _ => k))
  (at level 100, right associativity).

(** the world after a sleep *)
Definition slept (seconds : Z) (w : world) : world :=
  mkworld (calls w) (sleeps w ++ [seconds]) (commits w).

(** the world after one more call of the model *)
Definition called (w : world) : world :=
  mkworld (S (calls w)) (sleeps w) (commits w).

(** [time.sleep(seconds)] *)
Definition sleep (seconds : Z) : M unit :=
  fun w => (Ok tt, slept seconds w).

(** ** What the source calls but does not define *)

(** The prompt is the fixed template of lines 63-83 with three holes:
    [{text}], [{report_date}] and [{day_of_week_str}] (twice). *)
Record prompt : Type := mkprompt {
  prompt_text : pyval;
  prompt_report_date : pyval;
  prompt_day_of_week : string
}.

Record externals : Type := mkexternals {
  (* [model.generate_content(prompt).text] on the n-th call of the run
     (counting from 0): the text, or the exception raised *)
  generate_content : nat -> prompt -> result string;
  (* [genai.configure(api_key=...)] and [genai.GenerativeModel(...)]:
     the exception raised, if any *)
  genai_setup : pyval -> option exn;
  (* [json.loads] *)
  json_loads : string -> result pyval;
  (* [str.upper] *)
  str_upper : string -> string;
  (* the secret manager: [access_secret_version(...).payload.data.decode] *)
  access_secret_version : result string;
  (* [batch.commit()] of the n-th batch of the run: the exception raised,
     if any *)
  batch_commit : nat -> list write -> option exn;
  (* [batch.set(dest_ref, doc_data)]: the exception raised, if any.  The
     client encodes the record when it stages it and raises on a value it
     cannot encode, an integer out of the 64-bit range for one *)
  batch_set : string -> gmap string pyval -> option exn;
  (* the stream of the source collection is read as the loop goes: the
     exception it raises, if any, once the loop has taken the records it
     gave before *)
  stream_error : option exn
}.

(** the test [exc raised?] of an [option exn] as a computation *)
Definition run_setup (o : option exn) : M unit :=
  match o with
  | Some e => raise e
  | None => ret tt
  end.

(** [AttributeError]: ['cls' object has no attribute 'attr'] *)
Definition attribute_error (v : pyval) (attr : string) : exn :=
  "'" ++ type_name v ++ "' object has no attribute '" ++ attr ++ "'".

(** [v.get(k, dflt)]: a method of [dict] only *)
Definition py_get (v : pyval) (k : string) (dflt : pyval) : M pyval :=
  match v with
  | PDict d => ret (dict_get d k dflt)
  | _ => raise (attribute_error v "get")
  end.

Section Pipeline.

Context (E : externals).

(** ** [get_gemini_api_key] (lines 27-36) *)
Definition get_gemini_api_key : pyval :=
  match access_secret_version E with
  | Ok key => PStr key
  | Raise _ => PNone
  end.

(** ** [synthesize_and_extract] (lines 38-104) *)

Definition max_retries : nat := 3.

(** Lines 88-92: strip, then drop a leading "```json" and a trailing
    "```". *)
Definition clean_response (text : string) : string :=
  let content := Str.strip text in
  let content :=
    if Str.startswith "```json" content then Str.drop 7 content else content in
  if Str.endswith "```" content then Str.drop_last 3 content else content.

Definition call_model (p : prompt) : M string :=
  fun w => (generate_content E (calls w) p, called w).

(** Lines 63-94, the body of the inner [try]: one call of the model and
    the parse of its answer. *)
Definition attempt_once (text report_date : pyval) (day : string) : M pyval :=
  response <- call_model (mkprompt text report_date day) ;;
  lift (json_loads E (clean_response response)).

(** Lines 62-101, one iteration of the [for]: [Some v] when the iteration
    returns [v] from the function, [None] when the loop goes on; the
    second component is [retry_delay] after the iteration. *)
Definition retry_step (text report_date : pyval) (day : string)
    (attempt : nat) (retry_delay : Z) : M (option pyval * Z) :=
  try_except
    (v <- attempt_once text report_date day ;; ret (Some v, retry_delay))
    (fun e =>
       if Str.contains "429" e && (attempt <? max_retries - 1)%nat
       then sleep retry_delay ;;; ret (None, (retry_delay * 2)%Z)
       else raise e).

(** Lines 61-101, [for attempt in range(max_retries)].  A loop that ends
    without returning falls out of the function, which then returns
    [None]. *)
Fixpoint retry_loop (text report_date : pyval) (day : string)
    (attempts : list nat) (retry_delay : Z) : M pyval :=
  match attempts with
  | [] => ret PNone
  | attempt :: rest =>
      r <- retry_step text report_date day attempt retry_delay ;;
      match r with
      | (Some v, _) => ret v
      | (None, retry_delay') => retry_loop text report_date day rest retry_delay'
      end
  end.

(** Line 104: the annotation returned by the outer handler. *)
Definition error_annotation (e : exn) : pyval :=
  PDict (list_to_map
    [ ("sintesis", PStr ("Error: " ++ e)); ("tiempo", PStr "Error");
      ("modo", PStr "Error"); ("circunstancia", PStr "Error");
      ("alcaldia", PStr "Error"); ("es_anonima", PStr "Error") ]).

(** Lines 54-101, the body of the outer [try]. *)
Definition guarded_attempts (text report_date api_key : pyval) (day : string) : M pyval :=
  run_setup (genai_setup E api_key) ;;;
  retry_loop text report_date day (seq 0 max_retries) 5%Z.

Definition synthesize_and_extract (text report_date api_key : pyval) : M pyval :=
  if negb (py_truthy api_key) then ret PNone
  else
    let day_of_week_str := day_of_week_str report_date in
    try_except
      (guarded_attempts text report_date api_key day_of_week_str)
      (fun e => ret (error_annotation e)).

(** ** [process_denuncias] (lines 107-191) *)

(** [v.upper()]: a method of [str] among the values [json.loads] builds *)
Definition py_upper (v : pyval) : M string :=
  match v with
  | PStr s => ret (str_upper E s)
  | _ => raise (attribute_error v "upper")
  end.

(** Lines 158-164 *)
Definition set_not_available (doc_data : gmap string pyval) : gmap string pyval :=
  let doc_data := <["Síntesis" := PStr "No Transcript available."]> doc_data in
  let doc_data := <["Tiempo" := PStr "N/A"]> doc_data in
  let doc_data := <["Modo" := PStr "N/A"]> doc_data in
  let doc_data := <["Circunstancia" := PStr "N/A"]> doc_data in
  let doc_data := <["Alcaldía" := PStr "N/A"]> doc_data in
  let doc_data := <["¿Es anónima?" := PStr "N/A"]> doc_data in
  <["Registro" := PStr "N/A"]> doc_data.

(** Lines 144-156 *)
Definition set_extracted (doc_data : gmap string pyval) (extracted_data : pyval)
    : M (gmap string pyval) :=
  v <- py_get extracted_data "sintesis" (PStr "") ;;
  let doc_data := <["Síntesis" := v]> doc_data in
  v <- py_get extracted_data "tiempo" (PStr "") ;;
  let doc_data := <["Tiempo" := v]> doc_data in
  v <- py_get extracted_data "modo" (PStr "") ;;
  let doc_data := <["Modo" := v]> doc_data in
  v <- py_get extracted_data "circunstancia" (PStr "") ;;
  let doc_data := <["Circunstancia" := v]> doc_data in
  v <- py_get extracted_data "alcaldia" (PStr "") ;;
  let doc_data := <["Alcaldía" := v]> doc_data in
  v <- py_get extracted_data "es_anonima" (PStr "NO") ;;
  es_anonima <- py_upper v ;;
  let doc_data := <["¿Es anónima?" := PStr es_anonima]> doc_data in
  if es_anonima =? "SI"
  then ret (<["Registro" := PStr "Aviso"]> doc_data)
  else ret (<["Registro" := PStr "Denuncia"]> doc_data).

(** Lines 135-164: the record staged for a source record. *)
Definition enrich (doc_data : gmap string pyval) (api_key : pyval)
    : M (gmap string pyval) :=
  let transcript := dict_get doc_data "Transcript" (PStr "") in
  let report_date := dict_get doc_data "Date" (PStr "Fecha desconocida") in
  if py_truthy transcript then
    extracted_data <- synthesize_and_extract transcript report_date api_key ;;
    if py_truthy extracted_data
    then set_extracted doc_data extracted_data
    else ret doc_data
  else ret (set_not_available doc_data).

(** The variables of the loop: the writes staged in the batch object,
    [batch_count] and [processed_count]. *)
Record loop_state : Type := mkloop {
  batch : list write;
  batch_count : nat;
  processed_count : nat
}.

(** [batch.commit()] *)
Definition commit (b : list write) : M unit :=
  fun w =>
    match batch_commit E (length (commits w)) b with
    | Some e => (Raise e, w)
    | None => (Ok tt, mkworld (calls w) (sleeps w) (commits w ++ [b]))
    end.

(** Lines 174-177 *)
Definition commit_if_full (st : loop_state) : M loop_state :=
  if (400 <=? batch_count st)%nat then
    commit (batch st) ;;;
    ret (mkloop [] 0 (processed_count st))
  else ret st.

(** Lines 166-170: [batch.set], which raises on a record it cannot
    encode and adds the write to the batch otherwise, and the two
    counters *)
Definition stage (st : loop_state) (doc_id : string) (doc_data : gmap string pyval)
    : M loop_state :=
  run_setup (batch_set E doc_id doc_data) ;;;
  ret (mkloop (batch st ++ [(doc_id, doc_data)])
              (batch_count st + 1) (processed_count st + 1)).

(** Lines 133-177, the body of [for doc in docs] *)
Definition process_doc (api_key : pyval) (st : loop_state) (doc : write) : M loop_state :=
  let '(doc_id, doc_data) := doc in
  doc_data <- enrich doc_data api_key ;;
  st <- stage st doc_id doc_data ;;
  sleep 2 ;;;
  commit_if_full st.

Fixpoint for_docs (api_key : pyval) (docs : list write) (st : loop_state) : M loop_state :=
  match docs with
  | [] => ret st
  | doc :: rest =>
      st' <- process_doc api_key st doc ;;
      for_docs api_key rest st'
  end.

(** The answer of the endpoint: the body is one of four fixed templates. *)
Inductive response : Type :=
| Usage                              (* GET: the help page *)
| NoApiKey                           (* "Failed to retrieve API key.", 500 *)
| Complete (processed_count : nat)   (* "Proceso completo. ...", 200 *)
| Failed (e : exn).                  (* "Error procesando: ...", 500 *)

Definition status (r : response) : Z :=
  match r with
  | Usage | Complete _ => 200
  | NoApiKey | Failed _ => 500
  end.

(** Lines 117-185, the body of the [try].  The loop takes the records
    [docs] the stream gives; a stream that fails then ends the run there,
    before the last commit. *)
Definition run (docs : list write) : M response :=
  let api_key := get_gemini_api_key in
  if negb (py_truthy api_key) then ret NoApiKey
  else
    st <- for_docs api_key docs (mkloop [] 0 0) ;;
    run_setup (stream_error E) ;;;
    (if (0 <? batch_count st)%nat then commit (batch st) else ret tt) ;;;
    ret (Complete (processed_count st)).

(** [process_denuncias]: [method] is [request.method], [docs] the
    records the stream of the source collection gives. *)
Definition process_denuncias (method : string) (docs : list write)
    : world -> response * world :=
  fun w =>
    if method =? "GET" then (Usage, w)
    else
      match run docs w with
      | (Ok r, w') => (r, w')
      | (Raise e, w') => (Failed e, w')
      end.

End Pipeline.

(** ** [health_check] (lines 193-196) *)
Definition health_check : string * Z := ("OK", 200%Z).

(** ** Vocabulary of the statements *)

(** What the attempt made as call number [n] of the run comes to: the
    parsed answer, or the exception of the model or of [json.loads]. *)
Definition attempt_result (E : externals) (p : prompt) (n : nat) : result pyval :=
  match generate_content E n p with
  | Ok response => json_loads E (clean_response response)
  | Raise e => Raise e
  end.

(** The delays of the retries, in order. *)
Definition backoff : list Z := [5; 10]%Z.

(** After [k] rate-limited attempts the loop has made [k] calls and slept
    the first [k] delays. *)
Definition after_retries (k : nat) (w : world) : world :=
  mkworld (calls w + k) (sleeps w ++ firstn k backoff) (commits w).

(** The texts of a list, one after the other. *)
Definition glue (l : list string) : string := fold_right String.append EmptyString l.

(** No whitespace character is the start or the end of another one. *)
Definition whitespace_unambiguous : bool :=
  forallb (fun w =>
    forallb (fun w' =>
      implb (Str.startswith w' w || Str.startswith w w'
             || Str.endswith w' w || Str.endswith w w')
            (w =? w'))
      Str.whitespace)
    Str.whitespace.

(** What the enrichment leaves in [out] for the source record [src]: the
    record as read, or the two "N/A" of a record without transcript, or
    an anonymity text [s] and the [Registro] that goes with it. *)
Definition classified (src out : gmap string pyval) : Prop :=
  out = src \/
  (out !! "¿Es anónima?" = Some (PStr "N/A") /\ out !! "Registro" = Some (PStr "N/A")) \/
  exists s,
    out !! "¿Es anónima?" = Some (PStr s) /\
    out !! "Registro" = Some (PStr (if s =? "SI" then "Aviso" else "Denuncia")).

(** The seconds slept so far. *)
Definition total_sleep (w : world) : Z := fold_right Z.add 0%Z (sleeps w).

(** An exception the inner handler answers with a retry, when an attempt
    is left. *)
Definition rate_limited (e : exn) : bool := Str.contains "429" e.

(** The six keys of an annotation. *)
Definition annotation_keys : list string :=
  ["sintesis"; "tiempo"; "modo"; "circunstancia"; "alcaldia"; "es_anonima"].

(** The seven fields the enrichment writes. *)
Definition derived_fields : list string :=
  ["Síntesis"; "Tiempo"; "Modo"; "Circunstancia"; "Alcaldía"; "¿Es anónima?"; "Registro"].

(** A computation that commits nothing. *)
Definition keeps_commits {A} (c : M A) : Prop :=
  forall w, commits (snd (c w)) = commits w.

(** The invariant of the loop at the head of an iteration. *)
Definition loop_inv (st : loop_state) : Prop :=
  batch_count st = List.length (batch st) /\ (batch_count st < 400)%nat.

(** [wr] is the write staged for the source record [src]. *)
Definition staged_for (E : externals) (api_key : pyval) (src wr : write) : Prop :=
  fst wr = fst src /\
  exists w1 w2, enrich E (snd src) api_key w1 = (Ok (snd wr), w2).

(** [wr] goes to the identifier of [src] and agrees with it outside the
    derived fields. *)
Definition frames (src wr : write) : Prop :=
  fst wr = fst src /\
  forall k, ~ In k derived_fields -> snd wr !! k = snd src !! k.

(** ** Test doubles

    Concrete externals, on which the theorems below are instantiated. *)

Module Double.

(** the double quote, which a string literal cannot hold *)
Definition dq : string := String (ascii_of_nat 34) EmptyString.

(** the text [{"es_anonima": "si"}] *)
Definition anonymous_json : string :=
  "{" ++ dq ++ "es_anonima" ++ dq ++ ": " ++ dq ++ "si" ++ dq ++ "}".

Definition anonymous_annotation : pyval :=
  PDict {[ "es_anonima" := PStr "si" ]}.

(** a [json.loads] that knows three texts, with any whitespace around
    them, and raises on any other *)
Definition json_loads (s : string) : result pyval :=
  let s := Str.strip s in
  if s =? anonymous_json then Ok anonymous_annotation
  else if s =? "[1]" then Ok (PList [PInt 1])
  else if s =? "{}" then Ok (PDict ∅)
  else Raise "Expecting value: line 1 column 1 (char 0)".

(** the answer a model gives in a fenced block: the object on a line
    of its own *)
Definition newline : string := Str.of_codes [10].
Definition padded_json : string := newline ++ anonymous_json ++ newline.

Definition quota_error : exn := "429 Resource has been exhausted (e.g. check quota).".

(** a model that is rate-limited on its first [limited] calls and then
    answers [answer] *)
Definition model (limited : nat) (answer : string) (n : nat) (_ : prompt) : result string :=
  if (n <? limited)%nat then Raise quota_error else Ok answer.

Definition externals_of (limited : nat) (answer : string) : externals :=
  mkexternals (model limited answer) (fun _ => None) json_loads Str.ascii_upper
    (Ok "secret") (fun _ _ => None)
    (fun _ _ => None) None.

(** a model that fails for another reason than the rate limit *)
Definition broken : externals :=
  mkexternals (fun _ _ => Raise "500 Internal error encountered.") (fun _ => None)
    json_loads Str.ascii_upper (Ok "secret") (fun _ _ => None)
    (fun _ _ => None) None.

Definition w0 : world := mkworld 0 [] [].

Definition api_key : pyval := PStr "secret".

(** source records *)
Definition with_transcript : gmap string pyval :=
  {[ "Transcript" := PStr "Me pidieron dinero."; "Date" := PStr "03/10/2025";
     "Folio" := PInt 17 ]}.

Definition without_transcript : gmap string pyval :=
  {[ "Date" := PStr "03/10/2025"; "Folio" := PInt 18 ]}.

Definition already_classified : gmap string pyval :=
  {[ "Transcript" := PStr ""; "Registro" := PStr "Aviso" ]}.

(** a stream of [n] records without transcript, with identifiers of
    their own *)
Definition stream (n : nat) : list write :=
  map (fun i => ("doc" ++ pretty i, without_transcript)) (seq 0 n).

(** a [json.loads] whose error names the character 429 *)
Definition char_429_error : exn :=
  "Expecting ',' delimiter: line 3 column 17 (char 429)".

Definition json_loads_far (s : string) : result pyval :=
  if Str.strip s =? anonymous_json then Ok anonymous_annotation
  else Raise char_429_error.

(** a model whose first answer is cut short and whose next answers are
    complete, with that [json.loads] *)
Definition cut_short : externals :=
  mkexternals
    (fun n _ => if (n =? 0)%nat then Ok "{" else Ok anonymous_json)
    (fun _ => None) json_loads_far Str.ascii_upper (Ok "secret") (fun _ _ => None)
    (fun _ _ => None) None.

(** a secret manager that refuses *)
Definition no_secret : externals :=
  mkexternals (model 0 anonymous_json) (fun _ => None) json_loads Str.ascii_upper
    (Raise "403 Permission denied on secret") (fun _ _ => None)
    (fun _ _ => None) None.

(** a model that answers as [model 1 anonymous_json] when the prompt says
    the report was made on a Monday, and fails on any other prompt *)
Definition mondays_only : externals :=
  mkexternals
    (fun n p =>
       if prompt_day_of_week p =? "Lunes" then model 1 anonymous_json n p
       else Raise "400 Unsupported prompt")
    (fun _ => None) json_loads Str.ascii_upper (Ok "secret") (fun _ _ => None)
    (fun _ _ => None) None.

(** 400 records without transcript followed by one with a transcript *)
Definition stream_then_transcript : list write :=
  stream 400 ++ [("last", with_transcript)].

(** the answer [{"tiempo": 18446744073709551616}], and a [json.loads]
    that reads it *)
Definition wide_json : string :=
  "{" ++ dq ++ "tiempo" ++ dq ++ ": 18446744073709551616}".

Definition json_loads_wide (s : string) : result pyval :=
  if Str.strip s =? wide_json then Ok (PDict {[ "tiempo" := PInt (2 ^ 64) ]})
  else json_loads s.

(** a client that refuses to stage an integer out of the signed 64-bit
    range, as the encoder of the Firestore client does *)
Definition out_of_range : exn := "Value out of range: 18446744073709551616".

Definition encodes (v : pyval) : bool :=
  match v with
  | PInt n => ((- 2 ^ 63 <=? n) && (n <? 2 ^ 63))%Z
  | _ => true
  end.

Definition narrow_set (_ : string) (doc_data : gmap string pyval) : option exn :=
  if forallb encodes (map snd (map_to_list doc_data)) then None else Some out_of_range.

(** a model that gives that answer, with that client *)
Definition narrow : externals :=
  mkexternals (model 0 wide_json) (fun _ => None) json_loads_wide Str.ascii_upper
    (Ok "secret") (fun _ _ => None) narrow_set None.

(** a source stream that fails once it has given its records *)
Definition unavailable : exn := "503 The service is currently unavailable.".

Definition stream_fails : externals :=
  mkexternals (model 0 anonymous_json) (fun _ => None) json_loads Str.ascii_upper
    (Ok "secret") (fun _ _ => None) (fun _ _ => None) (Some unavailable).

End Double.

(** * Properties *)

(** ** Checks on concrete inputs *)

Example strip_newlines :
  Str.strip (Str.of_codes [10; 32] ++ "{}" ++ Str.of_codes [32; 194; 160; 10]) = "{}".
Proof. vm_compute. reflexivity. Qed.
Example contains_429 : Str.contains "429" "Error 429: quota" = true.
Proof. reflexivity. Qed.

Example endswith_fence : Str.endswith "```" "{}```" = true.
Proof. reflexivity. Qed.

Example drop_last_short : Str.drop_last 3 "ab" = "".
Proof. reflexivity. Qed.

Example weekday_monday : day_of_week_str (PStr "03/10/2025") = "Lunes".
Proof. reflexivity. Qed.

Example weekday_short_fields : day_of_week_str (PStr "3/9/2025") = "Domingo".
Proof. reflexivity. Qed.

Example weekday_leap_day : day_of_week_str (PStr "02/29/2024") = "Jueves".
Proof. reflexivity. Qed.

Example weekday_no_leap_day : day_of_week_str (PStr "02/29/2025") = "Desconocido".
Proof. reflexivity. Qed.

Example weekday_day_first : day_of_week_str (PStr "13/10/2025") = "Desconocido".
Proof. reflexivity. Qed.

Example weekday_trailing : day_of_week_str (PStr "03/10/20255") = "Desconocido".
Proof. reflexivity. Qed.

Example weekday_missing : day_of_week_str (PStr "Fecha desconocida") = "Desconocido".
Proof. reflexivity. Qed.

(** [\d] and [int] take the decimal digits of every script: the year in
    Arabic-Indic or in full-width digits, a day whose second digit is
    Arabic-Indic.  The classes written with ASCII digits do not. *)
Example weekday_arabic_indic_year : day_of_week_str (PStr "03/10/٢٠٢٥") = "Lunes".
Proof. reflexivity. Qed.

Example weekday_full_width_year : day_of_week_str (PStr "03/10/２０２５") = "Lunes".
Proof. reflexivity. Qed.

Example weekday_arabic_indic_day : day_of_week_str (PStr "03/1٠/2025") = "Lunes".
Proof. reflexivity. Qed.

Example weekday_arabic_indic_month : day_of_week_str (PStr "٠3/10/2025") = "Desconocido".
Proof. reflexivity. Qed.

Example strptime_reads_every_script :
  Date.strptime "12/2５/१९९९" = Some (Date.mkdate 1999 12 25).
Proof. reflexivity. Qed.

(** An answer that is a JSON array is truthy and has no [get]: the
    [AttributeError] leaves [enrich] and ends the run, with nothing
    committed. *)
Example array_answer_ends_the_run :
  process_denuncias (Double.externals_of 0 "[1]") "POST"
    [("a1", Double.with_transcript)] Double.w0
  = (Failed "'list' object has no attribute 'get'", mkworld 1 [] []).
Proof. vm_compute. reflexivity. Qed.

(** An answer with a time the client cannot encode: [enrich] returns
    the record, [batch.set] raises on it and the run ends there, before
    the pause and with nothing committed; the next record is not looked
    at. *)
Example wide_answer_is_enriched :
  exists doc_data,
    enrich Double.narrow Double.with_transcript Double.api_key Double.w0
    = (Ok doc_data, mkworld 1 [] []) /\
    doc_data !! "Tiempo" = Some (PInt (2 ^ 64)) /\
    batch_set Double.narrow "a1" doc_data = Some Double.out_of_range.
Proof. eexists. split; [vm_compute; reflexivity|]. split; vm_compute; reflexivity. Qed.

Example unstaged_record_ends_the_run :
  process_denuncias Double.narrow "POST"
    [("a1", Double.with_transcript); ("a2", Double.without_transcript)] Double.w0
  = (Failed Double.out_of_range, mkworld 1 [] []).
Proof. vm_compute. reflexivity. Qed.

(** A source stream that fails after three records: the three are
    staged, the run ends with the exception of the stream and nothing is
    committed. *)
Example failing_stream_ends_the_run :
  process_denuncias Double.stream_fails "POST" (Double.stream 3) Double.w0
  = (Failed Double.unavailable, mkworld 0 [2; 2; 2]%Z []).
Proof. vm_compute. reflexivity. Qed.

(** An answer that is the empty object is falsy: the record is staged as
    it was read, without any derived field. *)
Example empty_answer_adds_nothing :
  enrich (Double.externals_of 0 "{}") Double.with_transcript Double.api_key Double.w0
  = (Ok Double.with_transcript, mkworld 1 [] []).
Proof. vm_compute. reflexivity. Qed.

(** Only "```json" is removed at the start: after a bare "```" the
    leading fence stays in the text handed to [json.loads]. *)
Example bare_fence_stays :
  clean_response ("```" ++ Double.anonymous_json ++ "```")
  = "```" ++ Double.anonymous_json.
Proof. vm_compute. reflexivity. Qed.

(** A fenced answer followed by a newline is cleaned as well: [strip]
    comes first. *)
Example fenced_then_newline :
  clean_response ("```json" ++ Double.padded_json ++ "```" ++ Double.newline)
  = Double.padded_json.
Proof. vm_compute. reflexivity. Qed.

(** ** Strings *)

Lemma endswith_app (s q : string) : Str.endswith q (s ++ q) = true.
Proof.
  induction s as [|c s IH]; simpl.
  - destruct q as [|a q]; [reflexivity|].
    simpl. now rewrite Ascii.eqb_refl, String.eqb_refl.
  - rewrite IH. apply orb_true_r.
Qed.

Lemma take_app (s q : string) : Str.take (String.length s) (s ++ q) = s.
Proof. induction s as [|c s IH]; simpl; [destruct q; reflexivity | now rewrite IH]. Qed.

Lemma string_length_app (s q : string) :
  String.length (s ++ q) = (String.length s + String.length q)%nat.
Proof. induction s as [|c s IH]; simpl; [reflexivity | now rewrite IH]. Qed.

Lemma drop_last_app (s q : string) : Str.drop_last (String.length q) (s ++ q) = s.
Proof.
  unfold Str.drop_last. rewrite string_length_app.
  replace (String.length s + String.length q - String.length q)%nat
    with (String.length s) by lia.
  apply take_app.
Qed.

Lemma app_nonempty (s q : string) : q <> EmptyString -> s ++ q <> EmptyString.
Proof. destruct s; simpl; [tauto | discriminate]. Qed.

Lemma last_char_app (s q : string) : q <> EmptyString -> Str.last_char (s ++ q) = Str.last_char q.
Proof.
  intros Hq. induction s as [|c s IH]; simpl; [reflexivity|].
  destruct (s ++ q) eqn:Hsq; [|exact IH].
  destruct s; simpl in Hsq; [contradiction | discriminate].
Qed.

Lemma endswith_last_char (q s : string) :
  Str.endswith q s = true -> q <> EmptyString -> Str.last_char q = Str.last_char s.
Proof.
  intros H Hq. induction s as [|c s IH]; simpl in H.
  - rewrite orb_false_r in H. apply String.eqb_eq in H. now subst.
  - apply orb_true_iff in H as [H|H].
    + apply String.eqb_eq in H. now subst.
    + rewrite (IH H). destruct s; [|reflexivity].
      simpl in H. rewrite orb_false_r in H. apply String.eqb_eq in H. contradiction.
Qed.

Lemma rstrip1_none (s : string) (c : ascii) :
  Str.last_char s = Some c -> Str.ends_no_whitespace c = true -> Str.rstrip1 s = None.
Proof.
  intros Hs Hc. unfold Str.rstrip1.
  destruct (List.find _ _) as [w|] eqn:Hf; [|reflexivity].
  apply find_some in Hf as [Hin Hw].
  unfold Str.ends_no_whitespace in Hc. rewrite forallb_forall in Hc.
  specialize (Hc w Hin).
  assert (Hne : w <> EmptyString) by (intros ->; discriminate).
  rewrite (endswith_last_char _ _ Hw Hne), Hs, Ascii.eqb_refl in Hc. discriminate.
Qed.

Lemma iter_strip_none (step : string -> option string) (fuel : nat) (s : string) :
  step s = None -> Str.iter_strip step fuel s = s.
Proof. intros H. destruct fuel; simpl; [|rewrite H]; reflexivity. Qed.

Lemma strip_id (s : string) :
  Str.lstrip1 s = None -> Str.rstrip1 s = None -> Str.strip s = s.
Proof.
  intros Hl Hr. unfold Str.strip.
  rewrite (iter_strip_none _ _ _ Hl). apply iter_strip_none, Hr.
Qed.

(** What is between a leading "```json" and a trailing "```" comes out of
    the cleaning as it is, whatever it is. *)
Lemma clean_response_fenced (inner : string) :
  clean_response ("```json" ++ inner ++ "```") = inner.
Proof.
  unfold clean_response.
  rewrite strip_id.
  - replace (Str.startswith "```json" ("```json" ++ inner ++ "```")) with true
      by reflexivity.
    replace (Str.drop 7 ("```json" ++ inner ++ "```")) with (inner ++ "```")
      by reflexivity.
    rewrite endswith_app. apply (drop_last_app inner "```").
  - reflexivity.
  - apply (rstrip1_none _ "`"); [|reflexivity].
    change ("```json" ++ inner ++ "```") with ("```json" ++ (inner ++ "```")).
    rewrite !last_char_app by (try apply app_nonempty; discriminate). reflexivity.
Qed.

(** A text that starts with an opening brace and ends with a closing
    brace, as the text of a JSON object does, is left as it is. *)
Lemma clean_response_object (body : string) :
  clean_response ("{" ++ body ++ "}") = "{" ++ body ++ "}".
Proof.
  assert (Hlast : Str.last_char ("{" ++ body ++ "}") = Some "}"%char).
  { change ("{" ++ body ++ "}") with ("{" ++ (body ++ "}")).
    rewrite !last_char_app by (try apply app_nonempty; discriminate). reflexivity. }
  unfold clean_response.
  rewrite strip_id.
  - replace (Str.startswith "```json" ("{" ++ body ++ "}")) with false by reflexivity.
    destruct (Str.endswith "```" ("{" ++ body ++ "}")) eqn:He; [|reflexivity].
    apply endswith_last_char in He; [|discriminate].
    rewrite Hlast in He. discriminate.
  - reflexivity.
  - apply (rstrip1_none _ "}"); [exact Hlast | reflexivity].
Qed.

(** ** The extractor *)

Section ExtractorFacts.

Context (E : externals).

Lemma attempt_once_eq text report_date day w :
  attempt_once E text report_date day w =
  (match generate_content E (calls w) (mkprompt text report_date day) with
   | Ok response => json_loads E (clean_response response)
   | Raise e => Raise e
   end, called w).
Proof.
  unfold attempt_once, call_model, bind, lift, called.
  destruct (generate_content E (calls w) _); reflexivity.
Qed.

(** An attempt that returns ends the loop. *)
Lemma retry_step_returns text report_date day attempt delay w v :
  attempt_once E text report_date day w = (Ok v, called w) ->
  retry_step E text report_date day attempt delay w = (Ok (Some v, delay), called w).
Proof. intros H. unfold retry_step, try_except, bind, ret. now rewrite H. Qed.

(** A rate-limit error before the last attempt: sleep, double the delay,
    go on. *)
Lemma retry_step_backoff text report_date day attempt delay w e :
  attempt_once E text report_date day w = (Raise e, called w) ->
  Str.contains "429" e = true ->
  (attempt < max_retries - 1)%nat ->
  retry_step E text report_date day attempt delay w
  = (Ok (None, (delay * 2)%Z), slept delay (called w)).
Proof.
  intros H H429 Hlt. unfold retry_step, try_except, bind, ret. rewrite H.
  rewrite H429. apply Nat.ltb_lt in Hlt. rewrite Hlt. reflexivity.
Qed.

(** Any other error, and any error of the last attempt, leaves the loop. *)
Lemma retry_step_raises text report_date day attempt delay w e :
  attempt_once E text report_date day w = (Raise e, called w) ->
  Str.contains "429" e && (attempt <? max_retries - 1)%nat = false ->
  retry_step E text report_date day attempt delay w = (Raise e, called w).
Proof.
  intros H Hno. unfold retry_step, try_except, bind, ret. rewrite H.
  rewrite Hno. reflexivity.
Qed.

(** The outer handler turns whatever leaves the guarded block into the
    degraded annotation. *)
Lemma synthesize_and_extract_degrades text report_date api_key w e w' :
  py_truthy api_key = true ->
  guarded_attempts E text report_date api_key (day_of_week_str report_date) w
  = (Raise e, w') ->
  synthesize_and_extract E text report_date api_key w = (Ok (error_annotation e), w').
Proof.
  intros Hkey H. unfold synthesize_and_extract. rewrite Hkey. simpl.
  unfold try_except. rewrite H. reflexivity.
Qed.

Lemma synthesize_and_extract_returns text report_date api_key w v w' :
  py_truthy api_key = true ->
  guarded_attempts E text report_date api_key (day_of_week_str report_date) w
  = (Ok v, w') ->
  synthesize_and_extract E text report_date api_key w = (Ok v, w').
Proof.
  intros Hkey H. unfold synthesize_and_extract. rewrite Hkey. simpl.
  unfold try_except. rewrite H. reflexivity.
Qed.

(** [synthesize_and_extract] has no path that raises. *)
Lemma synthesize_and_extract_total text report_date api_key w :
  exists v w', synthesize_and_extract E text report_date api_key w = (Ok v, w').
Proof.
  unfold synthesize_and_extract.
  destruct (py_truthy api_key); simpl; [|unfold ret; eauto].
  unfold try_except.
  destruct (guarded_attempts _ _ _ _ _ w) as [[v|e] w']; unfold ret; eauto.
Qed.

(** The first attempt failing with an error that is not a rate-limit
    error leaves the guarded block at once: one call, no sleep. *)
Lemma guarded_attempts_first_failure text report_date api_key w e :
  genai_setup E api_key = None ->
  attempt_once E text report_date (day_of_week_str report_date) w = (Raise e, called w) ->
  Str.contains "429" e = false ->
  guarded_attempts E text report_date api_key (day_of_week_str report_date) w
  = (Raise e, called w).
Proof.
  intros Hsetup H Hno. unfold guarded_attempts. rewrite Hsetup.
  unfold bind at 1. simpl.
  unfold bind. rewrite (retry_step_raises _ _ _ _ _ _ _ H); [reflexivity|].
  now rewrite Hno.
Qed.

(** Three rate-limit errors: two sleeps of 5 and 10, then the third error
    leaves the guarded block. *)
Lemma guarded_attempts_exhausted text report_date api_key w e1 e2 e3 :
  let p := mkprompt text report_date (day_of_week_str report_date) in
  genai_setup E api_key = None ->
  generate_content E (calls w) p = Raise e1 ->
  generate_content E (S (calls w)) p = Raise e2 ->
  generate_content E (S (S (calls w))) p = Raise e3 ->
  Str.contains "429" e1 = true ->
  Str.contains "429" e2 = true ->
  guarded_attempts E text report_date api_key (day_of_week_str report_date) w
  = (Raise e3, mkworld (calls w + 3) (sleeps w ++ [5; 10]%Z) (commits w)).
Proof.
  intros p Hsetup H1 H2 H3 C1 C2. unfold guarded_attempts. rewrite Hsetup.
  unfold bind at 1. simpl.
  unfold bind at 1.
  rewrite (retry_step_backoff _ _ _ _ _ _ e1);
    [| rewrite attempt_once_eq; fold p; now rewrite H1 | exact C1 | unfold max_retries; lia].
  unfold bind at 1.
  rewrite (retry_step_backoff _ _ _ _ _ _ e2);
    [| rewrite attempt_once_eq; fold p; simpl; now rewrite H2 | exact C2
     | unfold max_retries; lia].
  unfold bind at 1.
  rewrite (retry_step_raises _ _ _ _ _ _ e3);
    [| rewrite attempt_once_eq; fold p; simpl; now rewrite H3
     | simpl; apply andb_false_r].
  unfold slept, called. simpl. rewrite <- app_assoc.
  replace (calls w + 3)%nat with (S (S (S (calls w)))) by lia. reflexivity.
Qed.

(** Two rate-limit errors, then an answer that parses. *)
Lemma guarded_attempts_third_time text report_date api_key w e1 e2 answer v :
  let p := mkprompt text report_date (day_of_week_str report_date) in
  genai_setup E api_key = None ->
  generate_content E (calls w) p = Raise e1 ->
  generate_content E (S (calls w)) p = Raise e2 ->
  generate_content E (S (S (calls w))) p = Ok answer ->
  Str.contains "429" e1 = true ->
  Str.contains "429" e2 = true ->
  json_loads E (clean_response answer) = Ok v ->
  guarded_attempts E text report_date api_key (day_of_week_str report_date) w
  = (Ok v, mkworld (calls w + 3) (sleeps w ++ [5; 10]%Z) (commits w)).
Proof.
  intros p Hsetup H1 H2 H3 C1 C2 Hv. unfold guarded_attempts. rewrite Hsetup.
  unfold bind at 1. simpl.
  unfold bind at 1.
  rewrite (retry_step_backoff _ _ _ _ _ _ e1);
    [| rewrite attempt_once_eq; fold p; now rewrite H1 | exact C1 | unfold max_retries; lia].
  unfold bind at 1.
  rewrite (retry_step_backoff _ _ _ _ _ _ e2);
    [| rewrite attempt_once_eq; fold p; simpl; now rewrite H2 | exact C2
     | unfold max_retries; lia].
  unfold bind at 1.
  rewrite (retry_step_returns _ _ _ _ _ _ v);
    [| rewrite attempt_once_eq; fold p; simpl; now rewrite H3, Hv].
  unfold slept, called, ret. simpl. rewrite <- app_assoc.
  replace (calls w + 3)%nat with (S (S (S (calls w)))) by lia. reflexivity.
Qed.

(** No more than three calls of the model, whatever it answers. *)
Lemma synthesize_and_extract_at_most_three_calls text report_date api_key w :
  (calls w <= calls (snd (synthesize_and_extract E text report_date api_key w))
   <= calls w + 3)%nat.
Proof.
  unfold synthesize_and_extract, guarded_attempts, try_except, bind, run_setup.
  cbn [seq max_retries retry_loop].
  unfold retry_step, attempt_once, call_model, lift, sleep, try_except, bind, ret, raise.
  repeat match goal with
         | |- context [match ?x with _ => _ end] =>
             match x with
             | context [match _ with _ => _ end] => fail 1
             | _ => destruct x; cbn [fst snd calls called slept]
             end
         end;
    lia.
Qed.

(** A response with anything around the object between the fences is
    parsed as the unfenced text is, as soon as [json.loads] does not see
    what [strip] removes from that text. *)
Lemma clean_response_padded (inner : string) :
  Str.startswith "```json" (Str.strip inner) = false ->
  Str.endswith "```" (Str.strip inner) = false ->
  json_loads E inner = json_loads E (Str.strip inner) ->
  json_loads E (clean_response ("```json" ++ inner ++ "```"))
  = json_loads E (clean_response inner).
Proof.
  intros Hs He Hws. rewrite clean_response_fenced.
  unfold clean_response. now rewrite Hs, He.
Qed.

End ExtractorFacts.

(** C3, as stated, fails: with a model that is rate-limited on every call,
    [synthesize_and_extract] raises nothing; the third error is turned into
    a returned annotation. *)
Lemma C3_exhaustion_is_returned_not_raised :
  let E := Double.externals_of 3 Double.anonymous_json in
  let p := mkprompt (PStr "t") (PStr "03/10/2025") "Lunes" in
  generate_content E 0 p = Raise Double.quota_error /\
  generate_content E 1 p = Raise Double.quota_error /\
  generate_content E 2 p = Raise Double.quota_error /\
  Str.contains "429" Double.quota_error = true /\
  ~ exists e w',
      synthesize_and_extract E (PStr "t") (PStr "03/10/2025") Double.api_key Double.w0
      = (Raise e, w').
Proof.
  repeat split; try reflexivity.
  intros (e & w' & H).
  destruct (synthesize_and_extract_total (Double.externals_of 3 Double.anonymous_json)
              (PStr "t") (PStr "03/10/2025") Double.api_key Double.w0) as (v & w'' & Hv).
  rewrite Hv in H. discriminate.
Qed.

(** C3, amended: when the model raises a rate-limit error on the first two
    attempts and an error on the third, the third error leaves the retry
    loop, is caught by the handler of [synthesize_and_extract] and comes
    back as the degraded annotation, after sleeps of 5 and 10 and three
    calls of the model; nothing is raised to the caller. *)
Theorem C3_exhaustion_degrades (E : externals) text report_date api_key w e1 e2 e3 :
  let p := mkprompt text report_date (day_of_week_str report_date) in
  py_truthy api_key = true ->
  genai_setup E api_key = None ->
  generate_content E (calls w) p = Raise e1 ->
  generate_content E (S (calls w)) p = Raise e2 ->
  generate_content E (S (S (calls w))) p = Raise e3 ->
  Str.contains "429" e1 = true ->
  Str.contains "429" e2 = true ->
  synthesize_and_extract E text report_date api_key w
  = (Ok (error_annotation e3),
     mkworld (calls w + 3) (sleeps w ++ [5; 10]%Z) (commits w)).
Proof.
  intros p Hkey Hsetup H1 H2 H3 C1 C2.
  apply synthesize_and_extract_degrades; [exact Hkey|].
  now apply (guarded_attempts_exhausted E text report_date api_key w e1 e2 e3).
Qed.

Lemma C3_exhaustion_degrades_witness :
  synthesize_and_extract (Double.externals_of 3 Double.anonymous_json)
    (PStr "t") (PStr "03/10/2025") Double.api_key Double.w0
  = (Ok (error_annotation Double.quota_error), mkworld 3 [5; 10]%Z []).
Proof.
  apply (C3_exhaustion_degrades (Double.externals_of 3 Double.anonymous_json)
           (PStr "t") (PStr "03/10/2025") Double.api_key Double.w0
           Double.quota_error Double.quota_error Double.quota_error);
    reflexivity.
Defined.

(** C4, as stated, fails: after a model error the annotation holds the
    marker "Error: <message>" under [sintesis] only; [tiempo] is the bare
    word "Error", which no message makes of the form "Error: <message>". *)
Lemma C4_not_every_field_carries_the_message :
  exists d w',
    synthesize_and_extract Double.broken (PStr "t") (PStr "03/10/2025")
      Double.api_key Double.w0 = (Ok (PDict d), w') /\
    ~ Forall (fun k => exists message, d !! k = Some (PStr ("Error: " ++ message)))
        annotation_keys.
Proof.
  eexists. eexists. split; [vm_compute; reflexivity|].
  intros H. apply Forall_cons in H as [_ H]. apply Forall_cons in H as [[m Hm] _].
  vm_compute in Hm. discriminate.
Qed.

(** C4, amended: a failure that leaves the guarded block (a model error, a
    response that is not JSON, an exhausted retry) is not raised to the
    caller of [synthesize_and_extract]; it returns an annotation in which
    [sintesis] is "Error: <message>" and each of the five other fields is
    the word "Error". *)
Theorem C4_failure_degrades (E : externals) text report_date api_key w e w' :
  py_truthy api_key = true ->
  guarded_attempts E text report_date api_key (day_of_week_str report_date) w
  = (Raise e, w') ->
  exists d,
    synthesize_and_extract E text report_date api_key w = (Ok (PDict d), w') /\
    d !! "sintesis" = Some (PStr ("Error: " ++ e)) /\
    d !! "tiempo" = Some (PStr "Error") /\
    d !! "modo" = Some (PStr "Error") /\
    d !! "circunstancia" = Some (PStr "Error") /\
    d !! "alcaldia" = Some (PStr "Error") /\
    d !! "es_anonima" = Some (PStr "Error").
Proof.
  intros Hkey H. eexists. split.
  - apply synthesize_and_extract_degrades; eassumption.
  - repeat split; reflexivity.
Qed.

Lemma C4_failure_degrades_witness :
  exists d,
    synthesize_and_extract Double.broken (PStr "t") (PStr "03/10/2025")
      Double.api_key Double.w0 = (Ok (PDict d), called Double.w0) /\
    d !! "sintesis" = Some (PStr "Error: 500 Internal error encountered.") /\
    d !! "tiempo" = Some (PStr "Error") /\
    d !! "modo" = Some (PStr "Error") /\
    d !! "circunstancia" = Some (PStr "Error") /\
    d !! "alcaldia" = Some (PStr "Error") /\
    d !! "es_anonima" = Some (PStr "Error").
Proof.
  apply (C4_failure_degrades Double.broken (PStr "t") (PStr "03/10/2025")
           Double.api_key Double.w0 "500 Internal error encountered.");
    reflexivity.
Defined.

(** C5: when the model raises a rate-limit error on attempts 1 and 2 and
    answers on attempt 3 with a text that parses, [synthesize_and_extract]
    returns the parsed annotation; it has slept 5 and then 10, and called
    the model three times. *)
Theorem C5_third_attempt_succeeds (E : externals) text report_date api_key w
    e1 e2 answer v :
  let p := mkprompt text report_date (day_of_week_str report_date) in
  py_truthy api_key = true ->
  genai_setup E api_key = None ->
  generate_content E (calls w) p = Raise e1 ->
  generate_content E (S (calls w)) p = Raise e2 ->
  generate_content E (S (S (calls w))) p = Ok answer ->
  Str.contains "429" e1 = true ->
  Str.contains "429" e2 = true ->
  json_loads E (clean_response answer) = Ok v ->
  synthesize_and_extract E text report_date api_key w
  = (Ok v, mkworld (calls w + 3) (sleeps w ++ [5; 10]%Z) (commits w)).
Proof.
  intros p Hkey Hsetup H1 H2 H3 C1 C2 Hv.
  apply synthesize_and_extract_returns; [exact Hkey|].
  now apply (guarded_attempts_third_time E text report_date api_key w e1 e2 answer v).
Qed.

Lemma C5_third_attempt_succeeds_witness :
  synthesize_and_extract (Double.externals_of 2 Double.anonymous_json)
    (PStr "t") (PStr "03/10/2025") Double.api_key Double.w0
  = (Ok Double.anonymous_annotation, mkworld 3 [5; 10]%Z []).
Proof.
  apply (C5_third_attempt_succeeds (Double.externals_of 2 Double.anonymous_json)
           (PStr "t") (PStr "03/10/2025") Double.api_key Double.w0
           Double.quota_error Double.quota_error Double.anonymous_json
           Double.anonymous_annotation);
    reflexivity.
Defined.

(** C7, as stated, fails: a JSON object between a leading "```" and a
    trailing "```" is wrapped in a leading and a trailing code-fence
    marker, and only the trailing one is removed.  The text handed to
    [json.loads] keeps the leading marker and is refused, so the fenced
    response gives an error where the object alone gives the
    annotation: the attempt raises, and the extraction returns the error
    annotation. *)
Lemma C7_bare_fence_is_not_stripped :
  let fenced := "```" ++ Double.anonymous_json ++ "```" in
  let E1 := Double.externals_of 0 fenced in
  let E2 := Double.externals_of 0 Double.anonymous_json in
  clean_response fenced = "```" ++ Double.anonymous_json /\
  clean_response Double.anonymous_json = Double.anonymous_json /\
  attempt_once E1 (PStr "t") (PStr "03/10/2025") "Lunes" Double.w0
  = (Raise "Expecting value: line 1 column 1 (char 0)", mkworld 1 [] []) /\
  attempt_once E2 (PStr "t") (PStr "03/10/2025") "Lunes" Double.w0
  = (Ok Double.anonymous_annotation, mkworld 1 [] []) /\
  synthesize_and_extract E1 (PStr "t") (PStr "03/10/2025") Double.api_key Double.w0
  = (Ok (error_annotation "Expecting value: line 1 column 1 (char 0)"),
     mkworld 1 [] []) /\
  synthesize_and_extract E2 (PStr "t") (PStr "03/10/2025") Double.api_key Double.w0
  = (Ok Double.anonymous_annotation, mkworld 1 [] []).
Proof. intros fenced E1 E2. repeat split; vm_compute; reflexivity. Qed.

(** C7, amended: a response that is a JSON object (a text from an
    opening to a closing brace), alone or with padding that [json.loads]
    does not see, between a leading "```json" and a trailing "```", is
    cleaned to what is between the fences, and the unfenced object is left
    as it is; so the attempt that receives the fenced response returns
    what the attempt that receives the object returns. *)
Theorem C7_fenced_response_parses_as_unfenced (E1 E2 : externals)
    text report_date day w inner body :
  let object := "{" ++ body ++ "}" in
  let p := mkprompt text report_date day in
  json_loads E1 = json_loads E2 ->
  json_loads E1 inner = json_loads E1 object ->
  generate_content E1 (calls w) p = Ok ("```json" ++ inner ++ "```") ->
  generate_content E2 (calls w) p = Ok object ->
  clean_response ("```json" ++ inner ++ "```") = inner /\
  clean_response object = object /\
  attempt_once E1 text report_date day w = attempt_once E2 text report_date day w.
Proof.
  intros object p Hjson Hpad H1 H2.
  pose proof (clean_response_fenced inner) as Hfenced.
  pose proof (clean_response_object body) as Hplain. fold object in Hplain.
  split; [exact Hfenced|]. split; [exact Hplain|].
  rewrite !attempt_once_eq. fold p.
  rewrite H1, H2, Hfenced, Hplain, Hpad, Hjson. reflexivity.
Qed.

Lemma C7_fenced_response_parses_as_unfenced_witness :
  attempt_once
    (Double.externals_of 0 ("```json" ++ Double.padded_json ++ "```"))
    (PStr "t") (PStr "03/10/2025") "Lunes" Double.w0
  = attempt_once (Double.externals_of 0 Double.anonymous_json)
      (PStr "t") (PStr "03/10/2025") "Lunes" Double.w0.
Proof.
  apply (C7_fenced_response_parses_as_unfenced
           (Double.externals_of 0 ("```json" ++ Double.padded_json ++ "```"))
           (Double.externals_of 0 Double.anonymous_json)
           (PStr "t") (PStr "03/10/2025") "Lunes" Double.w0
           Double.padded_json
           (Double.dq ++ "es_anonima" ++ Double.dq ++ ": " ++ Double.dq ++ "si" ++ Double.dq));
    reflexivity.
Defined.

(** C8: the weekday label of "03/10/2025", read as month/day/year, is
    "Lunes"; a text that [strptime] refuses, and a value that is not a
    text, get the label "Desconocido"; the label is a value in every
    case, nothing is raised. *)
Theorem C8_weekday_label :
  day_of_week_str (PStr "03/10/2025") = "Lunes" /\
  (forall s, Date.strptime s = None -> day_of_week_str (PStr s) = "Desconocido") /\
  (forall v, (forall s, v <> PStr s) -> day_of_week_str v = "Desconocido").
Proof.
  split; [reflexivity|]. split.
  - intros s H. unfold day_of_week_str. now rewrite H.
  - intros v H. destruct v; try reflexivity. now destruct (H s).
Qed.

Lemma C8_weekday_label_witness :
  Date.strptime "10-03-2025" = None /\
  day_of_week_str (PStr "10-03-2025") = "Desconocido" /\
  day_of_week_str PNone = "Desconocido".
Proof.
  split; [reflexivity|]. split.
  - apply (proj1 (proj2 C8_weekday_label)). reflexivity.
  - apply (proj2 (proj2 C8_weekday_label)). intros s. discriminate.
Defined.

(** ** The record enricher *)

Section EnricherFacts.

Context (E : externals).

(** On a dict whose [es_anonima] (or the default "NO") is a text,
    [set_extracted] returns, and the world is as it was. *)
Lemma set_extracted_dict doc_data d s w :
  dict_get d "es_anonima" (PStr "NO") = PStr s ->
  exists doc',
    set_extracted E doc_data (PDict d) w = (Ok doc', w) /\
    doc' !! "¿Es anónima?" = Some (PStr (str_upper E s)) /\
    doc' !! "Registro"
    = Some (PStr (if str_upper E s =? "SI" then "Aviso" else "Denuncia")) /\
    (forall k, ~ In k derived_fields -> doc' !! k = doc_data !! k).
Proof.
  intros Hs. unfold set_extracted, py_get, py_upper, bind, ret. rewrite Hs.
  destruct (str_upper E s =? "SI") eqn:Hsi; eexists; (split; [reflexivity|]).
  all: split; [now rewrite lookup_insert_ne, lookup_insert_eq|].
  all: split; [now rewrite lookup_insert_eq|].
  all: intros k Hk; rewrite !lookup_insert_ne; [reflexivity|..];
    intros <-; apply Hk; simpl; tauto.
Qed.

(** [set_extracted] raises on an annotation that is not a dict, and on an
    [es_anonima] that is not a text; when it returns, the annotation was a
    dict with a text there. *)
Lemma set_extracted_ok_inv doc_data v w doc' w' :
  set_extracted E doc_data v w = (Ok doc', w') ->
  exists d s, v = PDict d /\ dict_get d "es_anonima" (PStr "NO") = PStr s.
Proof.
  unfold set_extracted, py_get, py_upper, bind, ret, raise.
  destruct v; try discriminate.
  destruct (dict_get d "es_anonima" (PStr "NO")) eqn:Hs; try discriminate.
  intros _. eauto.
Qed.

Lemma set_extracted_not_a_dict doc_data v w :
  (forall d, v <> PDict d) ->
  set_extracted E doc_data v w = (Raise (attribute_error v "get"), w).
Proof. intros H. destruct v; try reflexivity. now destruct (H d). Qed.

Lemma set_extracted_not_a_text doc_data d w :
  (forall s, dict_get d "es_anonima" (PStr "NO") <> PStr s) ->
  set_extracted E doc_data (PDict d) w
  = (Raise (attribute_error (dict_get d "es_anonima" (PStr "NO")) "upper"), w).
Proof.
  intros H. unfold set_extracted, py_get, py_upper, bind, ret, raise.
  destruct (dict_get d "es_anonima" (PStr "NO")) eqn:Hv; try reflexivity.
  now destruct (H s).
Qed.

Lemma set_not_available_frame doc_data k :
  ~ In k derived_fields -> set_not_available doc_data !! k = doc_data !! k.
Proof.
  intros Hk. unfold set_not_available.
  rewrite !lookup_insert_ne; [reflexivity|..]; intros <-; apply Hk; simpl; tauto.
Qed.

(** What [enrich] returns differs from the source record on the seven
    derived fields at most. *)
Lemma enrich_frame doc_data api_key w doc' w' :
  enrich E doc_data api_key w = (Ok doc', w') ->
  forall k, ~ In k derived_fields -> doc' !! k = doc_data !! k.
Proof.
  unfold enrich.
  destruct (py_truthy (dict_get doc_data "Transcript" (PStr ""))).
  - unfold bind.
    destruct (synthesize_and_extract E _ _ api_key w) as [[v|e] w1]; [|discriminate].
    destruct (py_truthy v).
    + intros H. destruct (set_extracted_ok_inv _ _ _ _ _ H) as (d & s & -> & Hs).
      destruct (set_extracted_dict doc_data d s w1 Hs) as (doc'' & Heq & _ & _ & Hframe).
      rewrite Heq in H. injection H as <- <-. exact Hframe.
    + unfold ret. intros [= <- <-]. reflexivity.
  - unfold ret. intros [= <- <-] k Hk. now apply set_not_available_frame.
Qed.

End EnricherFacts.

(** C1: for a source record with a truthy transcript whose extraction
    returns a non-empty dict in which [es_anonima] (or, when the key is
    missing, the default "NO") is the text [s], the enriched record is
    produced and its [Registro] is "Aviso" exactly when [s.upper()] is
    "SI", and "Denuncia" otherwise. *)
Theorem C1_registro_follows_anonymity (E : externals) doc_data api_key w d s w' :
  let transcript := dict_get doc_data "Transcript" (PStr "") in
  let report_date := dict_get doc_data "Date" (PStr "Fecha desconocida") in
  py_truthy transcript = true ->
  synthesize_and_extract E transcript report_date api_key w = (Ok (PDict d), w') ->
  py_truthy (PDict d) = true ->
  dict_get d "es_anonima" (PStr "NO") = PStr s ->
  exists doc',
    enrich E doc_data api_key w = (Ok doc', w') /\
    (doc' !! "Registro" = Some (PStr "Aviso") <-> str_upper E s = "SI") /\
    (str_upper E s <> "SI" -> doc' !! "Registro" = Some (PStr "Denuncia")).
Proof.
  intros transcript report_date Ht Hx Hd Hs.
  destruct (set_extracted_dict E doc_data d s w' Hs) as (doc' & Heq & _ & Hreg & _).
  exists doc'. split.
  - unfold enrich. fold transcript report_date. rewrite Ht.
    unfold bind. rewrite Hx, Hd. exact Heq.
  - rewrite Hreg. destruct (String.eqb_spec (str_upper E s) "SI") as [Hsi|Hsi].
    + split; [tauto | contradiction].
    + split; [split; [discriminate | contradiction] | reflexivity].
Qed.

Lemma C1_registro_follows_anonymity_witness :
  exists doc',
    enrich (Double.externals_of 0 Double.anonymous_json) Double.with_transcript
      Double.api_key Double.w0 = (Ok doc', called Double.w0) /\
    (doc' !! "Registro" = Some (PStr "Aviso") <-> Str.ascii_upper "si" = "SI") /\
    (Str.ascii_upper "si" <> "SI" -> doc' !! "Registro" = Some (PStr "Denuncia")).
Proof.
  apply (C1_registro_follows_anonymity (Double.externals_of 0 Double.anonymous_json)
           Double.with_transcript Double.api_key Double.w0
           {[ "es_anonima" := PStr "si" ]} "si" (called Double.w0));
    reflexivity.
Defined.

(** C2, as stated, fails: for a record without transcript the seven fields
    do not hold one and the same marker; [Síntesis] differs from the
    others. *)
Lemma C2_no_single_marker :
  exists doc' w',
    enrich Double.broken Double.without_transcript Double.api_key Double.w0
    = (Ok doc', w') /\
    ~ exists marker, Forall (fun k => doc' !! k = Some marker) derived_fields.
Proof.
  eexists. eexists. split; [reflexivity|].
  intros (marker & H).
  apply Forall_cons in H as [H1 H]. apply Forall_cons in H as [H2 _].
  vm_compute in H1, H2. congruence.
Qed.

(** C2, amended: for a source record whose transcript is absent or falsy
    (the empty text among others), the model is not called, [Síntesis] is
    "No Transcript available." and the five other derived fields and
    [Registro] are "N/A". *)
Theorem C2_no_transcript (E : externals) doc_data api_key w :
  py_truthy (dict_get doc_data "Transcript" (PStr "")) = false ->
  exists doc',
    enrich E doc_data api_key w = (Ok doc', w) /\
    doc' !! "Síntesis" = Some (PStr "No Transcript available.") /\
    Forall (fun k => doc' !! k = Some (PStr "N/A"))
      ["Tiempo"; "Modo"; "Circunstancia"; "Alcaldía"; "¿Es anónima?"; "Registro"].
Proof.
  intros Ht. exists (set_not_available doc_data). split.
  - unfold enrich. rewrite Ht. reflexivity.
  - unfold set_not_available. split.
    + rewrite !lookup_insert_ne by discriminate. apply lookup_insert_eq.
    + repeat constructor;
        repeat (rewrite lookup_insert_eq || rewrite lookup_insert_ne by discriminate);
        reflexivity.
Qed.

Lemma C2_no_transcript_witness :
  exists doc',
    enrich Double.broken Double.without_transcript Double.api_key Double.w0
    = (Ok doc', Double.w0) /\
    doc' !! "Síntesis" = Some (PStr "No Transcript available.") /\
    Forall (fun k => doc' !! k = Some (PStr "N/A"))
      ["Tiempo"; "Modo"; "Circunstancia"; "Alcaldía"; "¿Es anónima?"; "Registro"].
Proof.
  apply (C2_no_transcript Double.broken Double.without_transcript Double.api_key
           Double.w0).
  reflexivity.
Defined.



(** ** The batched write loop *)

Open Scope list_scope.

Create HintDb commits.

Section LoopFacts.

Context (E : externals).

Local Arguments Nat.leb : simpl never.
Local Arguments Nat.ltb : simpl never.

Lemma keeps_ret {A} (a : A) : keeps_commits (ret a).
Proof. intros w. reflexivity. Qed.

Lemma keeps_raise {A} (e : exn) : keeps_commits (@raise A e).
Proof. intros w. reflexivity. Qed.

Lemma keeps_lift {A} (r : result A) : keeps_commits (lift r).
Proof. intros w. reflexivity. Qed.

Lemma keeps_sleep seconds : keeps_commits (sleep seconds).
Proof. intros w. reflexivity. Qed.

Lemma keeps_call_model p : keeps_commits (call_model E p).
Proof. intros w. reflexivity. Qed.

Lemma keeps_bind {A B} (c : M A) (k : A -> M B) :
  keeps_commits c -> (forall a, keeps_commits (k a)) -> keeps_commits (bind c k).
Proof.
  intros Hc Hk w. unfold bind. specialize (Hc w).
  destruct (c w) as [[a|e] w1]; simpl in *; [|exact Hc].
  now rewrite Hk.
Qed.

Lemma keeps_try {A} (c : M A) (h : exn -> M A) :
  keeps_commits c -> (forall e, keeps_commits (h e)) -> keeps_commits (try_except c h).
Proof.
  intros Hc Hh w. unfold try_except. specialize (Hc w).
  destruct (c w) as [[a|e] w1]; simpl in *; [exact Hc|].
  now rewrite Hh.
Qed.

Lemma keeps_run_setup o : keeps_commits (run_setup o).
Proof. destruct o; intros w; reflexivity. Qed.

Lemma keeps_py_get v k dflt : keeps_commits (py_get v k dflt).
Proof. destruct v; intros w; reflexivity. Qed.

Lemma keeps_py_upper v : keeps_commits (py_upper E v).
Proof. destruct v; intros w; reflexivity. Qed.

Hint Resolve keeps_ret keeps_raise keeps_lift keeps_sleep keeps_call_model
  keeps_run_setup keeps_py_get keeps_py_upper : commits.

Ltac keeps :=
  repeat first
    [ progress auto with commits
    | apply keeps_bind; [|intros ?]
    | apply keeps_try; [|intros ?]
    | match goal with
      | |- keeps_commits (if ?b then _ else _) => destruct b
      | |- keeps_commits (match ?x with _ => _ end) => destruct x
      end ].

Lemma keeps_retry_step text report_date day attempt delay :
  keeps_commits (retry_step E text report_date day attempt delay).
Proof. unfold retry_step, attempt_once. keeps. Qed.

Lemma keeps_retry_loop text report_date day attempts :
  forall delay, keeps_commits (retry_loop E text report_date day attempts delay).
Proof.
  induction attempts as [|attempt rest IH]; intros delay; simpl; [keeps|].
  apply keeps_bind; [apply keeps_retry_step|].
  intros [[v|] delay']; [keeps | apply IH].
Qed.

Lemma keeps_synthesize_and_extract text report_date api_key :
  keeps_commits (synthesize_and_extract E text report_date api_key).
Proof.
  unfold synthesize_and_extract, guarded_attempts.
  destruct (negb (py_truthy api_key)); [keeps|].
  apply keeps_try; [|intros e; keeps].
  apply keeps_bind; [keeps|]. intros _. apply keeps_retry_loop.
Qed.

Lemma keeps_set_extracted doc_data v : keeps_commits (set_extracted E doc_data v).
Proof. unfold set_extracted. keeps. Qed.

Lemma keeps_enrich doc_data api_key : keeps_commits (enrich E doc_data api_key).
Proof.
  unfold enrich.
  destruct (py_truthy (dict_get doc_data "Transcript" (PStr ""))); [|keeps].
  apply keeps_bind; [apply keeps_synthesize_and_extract|].
  intros v. destruct (py_truthy v); [apply keeps_set_extracted | keeps].
Qed.

Lemma stage_eq st doc_id doc_data w :
  stage E st doc_id doc_data w
  = match batch_set E doc_id doc_data with
    | Some e => (Raise e, w)
    | None =>
        (Ok (mkloop (batch st ++ [(doc_id, doc_data)])
                    (batch_count st + 1) (processed_count st + 1)), w)
    end.
Proof.
  unfold stage, bind, run_setup, raise, ret.
  destruct (batch_set E doc_id doc_data); reflexivity.
Qed.

(** One iteration, from a state in which the batch holds fewer than 400
    writes: the record is staged; if that makes 400 the batch is committed
    once, as it is, and the loop goes on with an empty batch; otherwise
    nothing is committed.  An iteration that raises commits nothing. *)
Lemma process_doc_spec api_key st doc w :
  loop_inv st ->
  match process_doc E api_key st doc w with
  | (Ok st', w') =>
      exists wr,
        staged_for E api_key doc wr /\
        loop_inv st' /\
        processed_count st' = (processed_count st + 1)%nat /\
        ((batch_count st + 1 < 400)%nat /\
         batch st' = batch st ++ [wr] /\ commits w' = commits w
         \/
         (batch_count st + 1 = 400)%nat /\
         batch st' = [] /\ commits w' = commits w ++ [batch st ++ [wr]])
  | (Raise e, w') => commits w' = commits w
  end.
Proof.
  intros [Hlen Hlt]. destruct doc as [doc_id doc_data].
  unfold process_doc, bind.
  pose proof (keeps_enrich doc_data api_key w) as Hkeep.
  destruct (enrich E doc_data api_key w) as [[doc'|e] w1] eqn:Hen;
    simpl in Hkeep; [|exact Hkeep].
  rewrite stage_eq. destruct (batch_set E doc_id doc') as [e|]; [exact Hkeep|].
  unfold sleep, commit_if_full, bind, commit, ret. simpl.
  destruct (400 <=? batch_count st + 1)%nat eqn:Hfull.
  - apply Nat.leb_le in Hfull.
    match goal with
    | |- context [batch_commit E ?n ?b] => destruct (batch_commit E n b) as [e|]
    end; simpl; [exact Hkeep|].
    exists (doc_id, doc'). split; [split; [reflexivity | eauto]|].
    split; [split; simpl; lia|]. split; [reflexivity|].
    right. rewrite Hkeep. repeat split. lia.
  - apply Nat.leb_gt in Hfull.
    exists (doc_id, doc'). split; [split; [reflexivity | eauto]|].
    split; [split; simpl; [rewrite length_app; simpl; lia | lia]|].
    split; [reflexivity|].
    left. repeat split; [exact Hfull | exact Hkeep].
Qed.

(** The loop over a stream: the batches committed on the way hold 400
    writes each; written one after the other and followed by the batch in
    progress they are the batch the loop started with followed by one
    write for each record of the stream, in order. *)
Lemma for_docs_spec api_key docs :
  forall st w,
    loop_inv st ->
    match for_docs E api_key docs st w with
    | (Ok st', w') =>
        exists new staged,
          commits w' = commits w ++ new /\
          Forall (fun b => length b = 400%nat) new /\
          concat new ++ batch st' = batch st ++ staged /\
          Forall2 (staged_for E api_key) docs staged /\
          loop_inv st' /\
          processed_count st' = (processed_count st + length docs)%nat
    | (Raise e, w') =>
        exists new,
          commits w' = commits w ++ new /\
          Forall (fun b => length b = 400%nat) new
    end.
Proof.
  induction docs as [|doc rest IH]; intros st w Hinv; simpl.
  - exists [], []. rewrite !app_nil_r. simpl.
    split; [reflexivity|]. split; [constructor|]. split; [reflexivity|].
    split; [constructor|]. split; [exact Hinv | lia].
  - unfold bind.
    pose proof (process_doc_spec api_key st doc w Hinv) as Hstep.
    destruct (process_doc E api_key st doc w) as [[st1|e] w1].
    2:{ exists []. rewrite app_nil_r. split; [exact Hstep | constructor]. }
    destruct Hstep as (wr & Hwr & Hinv1 & Hpc & Hcase).
    specialize (IH st1 w1 Hinv1).
    assert (Hfull : forall b, (batch_count st + 1 = 400)%nat ->
                              b = batch st ++ [wr] -> length b = 400%nat).
    { intros b H400 ->. rewrite length_app. simpl. destruct Hinv as [Hl _]. lia. }
    destruct (for_docs E api_key rest st1 w1) as [[st2|e] w2].
    + destruct IH as (new & staged & Hc & Hnew & Hcat & Hst & Hinv2 & Hpc2).
      destruct Hcase as [(_ & Hb & Hc1) | (H400 & Hb & Hc1)].
      * exists new, (wr :: staged).
        split; [now rewrite Hc, Hc1|]. split; [assumption|].
        split; [rewrite Hcat, Hb, <- app_assoc; reflexivity|].
        split; [constructor; assumption|].
        split; [exact Hinv2 | simpl; lia].
      * exists ((batch st ++ [wr]) :: new), (wr :: staged).
        split; [rewrite Hc, Hc1, <- app_assoc; reflexivity|].
        split; [constructor; [now apply Hfull | assumption]|].
        split; [simpl; rewrite <- !app_assoc, Hcat, Hb; reflexivity|].
        split; [constructor; assumption|].
        split; [exact Hinv2 | simpl; lia].
    + destruct IH as (new & Hc & Hnew).
      destruct Hcase as [(_ & _ & Hc1) | (H400 & _ & Hc1)].
      * exists new. now rewrite Hc, Hc1.
      * exists ((batch st ++ [wr]) :: new). rewrite Hc, Hc1, <- app_assoc.
        split; [reflexivity|]. constructor; [now apply Hfull | assumption].
Qed.

End LoopFacts.

Lemma map_length_full (new : list (list write)) :
  Forall (fun b => length b = 400%nat) new ->
  map length new = repeat 400%nat (length new) /\
  length (concat new) = (400 * length new)%nat.
Proof.
  induction 1 as [|b new Hb _ [IH1 IH2]]; [split; reflexivity|].
  split.
  - cbn [map length repeat]. now rewrite Hb, IH1.
  - cbn [concat length]. rewrite length_app, Hb, IH2. lia.
Qed.

Lemma full_weakens (new : list (list write)) :
  Forall (fun b => length b = 400%nat) new ->
  Forall (fun b => (1 <= length b <= 400)%nat) new.
Proof. intros H. eapply Forall_impl; [exact H|]. simpl. intros b Hb. lia. Qed.

Lemma staged_for_frames (E : externals) api_key src wr :
  staged_for E api_key src wr -> frames src wr.
Proof.
  intros [Hid (w1 & w2 & Hen)]. split; [exact Hid|].
  exact (enrich_frame E _ _ _ _ _ Hen).
Qed.

(** A whole run.  Whatever the answer, the batches committed by the run
    are added to those of before and hold between 1 and 400 writes.  When
    the answer is [Complete n], [n] is the length of the stream, the
    batches hold 400 writes each except a last one of [n mod 400] writes
    when that is not 0, and the writes are those staged for the records of
    the stream, in order. *)
Lemma process_denuncias_spec (E : externals) method docs w :
  exists new,
    commits (snd (process_denuncias E method docs w)) = commits w ++ new /\
    Forall (fun b => (1 <= length b <= 400)%nat) new /\
    forall n,
      fst (process_denuncias E method docs w) = Complete n ->
      n = length docs /\
      map length new
      = repeat 400%nat (n / 400) ++ (if (n mod 400 =? 0)%nat then [] else [(n mod 400)%nat]) /\
      Forall2 (staged_for E (get_gemini_api_key E)) docs (concat new).
Proof.
  unfold process_denuncias.
  destruct (method =? "GET").
  { exists []. rewrite app_nil_r. repeat split; [constructor | discriminate..]. }
  unfold run.
  destruct (negb (py_truthy (get_gemini_api_key E))).
  { exists []. rewrite app_nil_r. repeat split; [constructor | discriminate..]. }
  unfold bind.
  assert (Hinit : loop_inv (mkloop [] 0 0)) by (split; simpl; lia).
  pose proof (for_docs_spec E (get_gemini_api_key E) docs _ w Hinit) as Hloop.
  destruct (for_docs E (get_gemini_api_key E) docs (mkloop [] 0 0) w) as [[st|e] w1].
  2:{ destruct Hloop as (new & Hc & Hnew). exists new. cbn [fst snd].
      split; [exact Hc|]. split; [now apply full_weakens | discriminate]. }
  destruct Hloop as (new & staged & Hc & Hnew & Hcat & Hst & [Hlen Hlt] & Hpc).
  simpl in Hcat, Hpc.
  destruct (map_length_full new Hnew) as [Hmap Hsize].
  pose proof (Forall2_length _ _ _ Hst) as Hn.
  assert (Hsum : (400 * length new + batch_count st = length docs)%nat).
  { rewrite Hn, <- Hcat, length_app, Hsize, Hlen. reflexivity. }
  assert (Hq : length new = (length docs / 400)%nat).
  { apply (Nat.div_unique _ 400 _ (batch_count st)); lia. }
  assert (Hr : batch_count st = (length docs mod 400)%nat).
  { apply (Nat.mod_unique _ 400 (length new)); lia. }
  destruct (stream_error E) as [e|]; cbn [run_setup raise ret].
  { exists new. split; [exact Hc|]. split; [now apply full_weakens | discriminate]. }
  destruct (0 <? batch_count st)%nat eqn:Hpos.
  - apply Nat.ltb_lt in Hpos. unfold commit.
    destruct (batch_commit E (length (commits w1)) (batch st)) as [e|]; cbn [fst snd commits].
    + exists new. split; [exact Hc|]. split; [now apply full_weakens | discriminate].
    + exists (new ++ [batch st]). rewrite Hc, <- app_assoc.
      split; [reflexivity|]. split.
      * apply Forall_app. split; [now apply full_weakens|].
        constructor; [lia | constructor].
      * intros n [= <-]. rewrite Hpc. split; [reflexivity|]. split.
        -- rewrite map_app, Hmap, Hq. cbn [map]. rewrite <- Hlen, Hr.
           destruct (Nat.eqb_spec (length docs mod 400) 0); [lia | reflexivity].
        -- rewrite concat_app. cbn [concat]. rewrite app_nil_r, Hcat. exact Hst.
  - apply Nat.ltb_ge in Hpos. unfold ret. cbn [fst snd].
    exists new. split; [exact Hc|]. split; [now apply full_weakens|].
    intros n [= <-]. rewrite Hpc. split; [reflexivity|]. split.
    + rewrite Hmap, Hq.
      destruct (Nat.eqb_spec (length docs mod 400) 0); [now rewrite app_nil_r | lia].
    + assert (Hnil : batch st = []) by (apply length_zero_iff_nil; lia).
      rewrite Hnil, app_nil_r in Hcat. rewrite Hcat. exact Hst.
Qed.

(** C6: (1) at the head of every iteration of the loop the batch in
    progress holds [batch_count] writes, fewer than 400, so that it never
    holds more than 400; (2) an iteration that stages the 400th write
    commits the batch once, all 400 writes of it, and leaves an empty batch
    and a count of 0 to the next iteration, and an iteration that stages
    fewer commits nothing; (3) a run commits batches of 1 to 400 writes,
    and a run that reaches the end of a stream of [n] records has
    committed [n / 400] batches of 400 writes followed, when [n mod 400]
    is not 0, by one batch of [n mod 400] writes, and by nothing
    otherwise. *)
Theorem C6_batches_of_at_most_400 (E : externals) :
  let api_key := get_gemini_api_key E in
  (forall docs w st w',
      for_docs E api_key docs (mkloop [] 0 0) w = (Ok st, w') ->
      length (batch st) = batch_count st /\ (length (batch st) < 400)%nat) /\
  (forall st doc w st' w',
      loop_inv st ->
      process_doc E api_key st doc w = (Ok st', w') ->
      ((length (batch st) + 1 < 400)%nat ->
       length (batch st') = (length (batch st) + 1)%nat /\ commits w' = commits w) /\
      ((length (batch st) + 1 = 400)%nat ->
       batch st' = [] /\ batch_count st' = 0%nat /\
       exists b, length b = 400%nat /\ commits w' = commits w ++ [b])) /\
  (forall method docs w r w',
      process_denuncias E method docs w = (r, w') ->
      exists new,
        commits w' = commits w ++ new /\
        Forall (fun b => (1 <= length b <= 400)%nat) new /\
        forall n,
          r = Complete n ->
          n = length docs /\
          map length new
          = repeat 400%nat (n / 400)
            ++ (if (n mod 400 =? 0)%nat then [] else [(n mod 400)%nat])).
Proof.
  intros api_key. split; [|split].
  - intros docs w st w' H.
    assert (Hinit : loop_inv (mkloop [] 0 0)) by (split; simpl; lia).
    pose proof (for_docs_spec E api_key docs _ w Hinit) as Hloop.
    rewrite H in Hloop.
    destruct Hloop as (_ & _ & _ & _ & _ & _ & [Hlen Hlt] & _).
    rewrite <- Hlen. split; [reflexivity | exact Hlt].
  - intros st doc w st' w' Hinv H.
    pose proof (process_doc_spec E api_key st doc w Hinv) as Hstep.
    rewrite H in Hstep.
    destruct Hstep as (wr & _ & [Hlen' _] & _ & Hcase).
    destruct Hinv as [Hlen _]. rewrite <- Hlen.
    destruct Hcase as [(Hlt & Hb & Hc) | (H400 & Hb & Hc)].
    + split; [|lia]. intros _. rewrite Hb, length_app. simpl. split; [lia | exact Hc].
    + split; [lia|]. intros _. split; [exact Hb|]. split; [now rewrite Hlen', Hb|].
      exists (batch st ++ [wr]). split; [|exact Hc].
      rewrite length_app. simpl. lia.
  - intros method docs w r w' H.
    destruct (process_denuncias_spec E method docs w) as (new & Hc & Hall & Hn).
    rewrite H in Hc, Hn. exists new. split; [exact Hc|]. split; [exact Hall|].
    intros n Hr. destruct (Hn n Hr) as (Hlen & Hmap & _). now split.
Qed.

Lemma C6_batches_of_at_most_400_witness :
  let run := process_denuncias Double.broken "POST" (Double.stream 401) Double.w0 in
  fst run = Complete 401 /\
  exists new,
    commits (snd run) = commits Double.w0 ++ new /\ map length new = [400; 1]%nat.
Proof.
  intros run.
  assert (Hrun : fst run = Complete 401) by (vm_compute; reflexivity).
  split; [exact Hrun|].
  destruct (proj2 (proj2 (C6_batches_of_at_most_400 Double.broken))
              "POST" (Double.stream 401) Double.w0 (fst run) (snd run)
              (surjective_pairing run))
    as (new & Hc & _ & Hn).
  exists new. split; [exact Hc|].
  exact (proj2 (Hn 401%nat Hrun)).
Defined.

(** C9, as stated, fails: a source record that already has a [Registro]
    field is written with another value there. *)
Lemma C9_source_field_overwritten :
  exists w' wr,
    process_denuncias Double.broken "POST" [("a1", Double.already_classified)] Double.w0
    = (Complete 1, w') /\
    commits w' = [[wr]] /\
    fst wr = "a1" /\
    ~ (forall k v, Double.already_classified !! k = Some v -> snd wr !! k = Some v).
Proof.
  eexists. eexists. split; [vm_compute; reflexivity|].
  split; [reflexivity|]. split; [reflexivity|].
  intros H. specialize (H "Registro" (PStr "Aviso") eq_refl).
  vm_compute in H. discriminate.
Qed.

(** C9, amended: the record [enrich] returns has every field of the source
    record whose name is not one of the seven derived names, with its
    value, and no other field outside those seven; and the writes a
    completed run has committed are, in the order of the stream, one for
    each source record, under its identifier, with that property. *)
Theorem C9_fields_outside_derived_kept (E : externals) :
  (forall doc_data api_key w doc' w',
      enrich E doc_data api_key w = (Ok doc', w') ->
      forall k, ~ In k derived_fields -> doc' !! k = doc_data !! k) /\
  (forall method docs w n w',
      process_denuncias E method docs w = (Complete n, w') ->
      exists new,
        commits w' = commits w ++ new /\ Forall2 frames docs (concat new)).
Proof.
  split; [apply enrich_frame|].
  intros method docs w n w' H.
  destruct (process_denuncias_spec E method docs w) as (new & Hc & _ & Hn).
  rewrite H in Hc, Hn. exists new. split; [exact Hc|].
  destruct (Hn n eq_refl) as (_ & _ & Hst).
  eapply Forall2_impl; [exact Hst|]. intros src wr. apply staged_for_frames.
Qed.

Lemma C9_fields_outside_derived_kept_witness :
  exists new,
    commits (snd (process_denuncias Double.broken "POST"
                    [("a1", Double.with_transcript)] Double.w0))
    = commits Double.w0 ++ new /\
    Forall2 frames [("a1", Double.with_transcript)] (concat new).
Proof.
  apply (proj2 (C9_fields_outside_derived_kept Double.broken) "POST"
           [("a1", Double.with_transcript)] Double.w0 1%nat).
  vm_compute. reflexivity.
Defined.

(** * Further properties of the code *)

(** ** The retry loop, attempt by attempt *)

Section RetryFacts.

Context (E : externals).

Lemma attempt_once_result text report_date day w :
  attempt_once E text report_date day w
  = (attempt_result E (mkprompt text report_date day) (calls w), called w).
Proof. apply attempt_once_eq. Qed.

(** One unfolding of the loop. *)
Lemma retry_loop_cons text report_date day attempt rest delay w :
  retry_loop E text report_date day (attempt :: rest) delay w
  = match attempt_result E (mkprompt text report_date day) (calls w) with
    | Ok v => (Ok v, called w)
    | Raise e =>
        if rate_limited e && (attempt <? max_retries - 1)%nat
        then retry_loop E text report_date day rest (delay * 2)%Z (slept delay (called w))
        else (Raise e, called w)
    end.
Proof.
  cbn [retry_loop]. unfold bind at 1. unfold retry_step, try_except, bind at 1.
  rewrite attempt_once_result.
  destruct (attempt_result E _ (calls w)) as [v|e]; [reflexivity|].
  unfold rate_limited.
  destruct (Str.contains "429" e && (attempt <? max_retries - 1)%nat); reflexivity.
Qed.

Lemma guarded_attempts_eq text report_date api_key day w :
  genai_setup E api_key = None ->
  guarded_attempts E text report_date api_key day w
  = retry_loop E text report_date day [0; 1; 2]%nat 5%Z w.
Proof. intros H. unfold guarded_attempts. rewrite H. reflexivity. Qed.


(** The loop after [k] rate-limited attempts, [k] at most 2, is the loop
    on the attempts that are left, in the world [after_retries k w], with
    the delay doubled [k] times. *)
Lemma retry_loop_after_retries text report_date day w k :
  let p := mkprompt text report_date day in
  (k <= 2)%nat ->
  (forall i, (i < k)%nat ->
     exists e, attempt_result E p (calls w + i) = Raise e /\ rate_limited e = true) ->
  retry_loop E text report_date day [0; 1; 2]%nat 5%Z w
  = retry_loop E text report_date day (skipn k [0; 1; 2]%nat) (5 * 2 ^ Z.of_nat k)%Z
      (after_retries k w).
Proof.
  intros p Hk Hretry.
  assert (Hw0 : after_retries 0 w = w).
  { unfold after_retries. cbn [firstn]. rewrite app_nil_r, Nat.add_0_r.
    now destruct w. }
  destruct k as [|k]; [now rewrite Hw0|].
  destruct (Hretry 0%nat ltac:(lia)) as (e0 & H0 & R0). rewrite Nat.add_0_r in H0.
  rewrite retry_loop_cons. fold p. rewrite H0, R0. cbn [andb max_retries Nat.sub Nat.ltb Nat.leb].
  destruct k as [|k].
  { unfold after_retries, slept, called, backoff. cbn [firstn skipn calls sleeps commits].
    rewrite Nat.add_1_r. reflexivity. }
  destruct (Hretry 1%nat ltac:(lia)) as (e1 & H1 & R1). rewrite Nat.add_1_r in H1.
  rewrite retry_loop_cons. fold p.
  cbn [slept called calls sleeps commits]. rewrite H1, R1.
  cbn [andb max_retries Nat.sub Nat.ltb Nat.leb].
  destruct k as [|k]; [|lia].
  unfold after_retries, slept, called, backoff. cbn [firstn skipn calls sleeps commits].
  rewrite <- app_assoc. replace (calls w + 2)%nat with (S (S (calls w))) by lia.
  reflexivity.
Qed.

(** The attempt that follows [k] rate-limited ones returns: so does the
    guarded block, after one more call. *)
Lemma guarded_attempts_success_after text report_date api_key w k v :
  let p := mkprompt text report_date (day_of_week_str report_date) in
  genai_setup E api_key = None ->
  (k <= 2)%nat ->
  (forall i, (i < k)%nat ->
     exists e, attempt_result E p (calls w + i) = Raise e /\ rate_limited e = true) ->
  attempt_result E p (calls w + k) = Ok v ->
  guarded_attempts E text report_date api_key (day_of_week_str report_date) w
  = (Ok v, called (after_retries k w)).
Proof.
  intros p Hsetup Hk Hretry Hv.
  rewrite (guarded_attempts_eq _ _ _ _ _ Hsetup).
  rewrite (retry_loop_after_retries _ _ _ _ k Hk Hretry).
  destruct k as [|[|[|k]]]; [| | |lia]; cbn [skipn];
    rewrite retry_loop_cons; fold p; cbn [after_retries calls]; now rewrite Hv.
Qed.

(** The attempt that follows [k] rate-limited ones fails with an error
    that is not a rate-limit error, or is the third attempt: its error
    leaves the guarded block, after one more call and no more sleep. *)
Lemma guarded_attempts_failure_after text report_date api_key w k e :
  let p := mkprompt text report_date (day_of_week_str report_date) in
  genai_setup E api_key = None ->
  (k <= 2)%nat ->
  (forall i, (i < k)%nat ->
     exists e', attempt_result E p (calls w + i) = Raise e' /\ rate_limited e' = true) ->
  attempt_result E p (calls w + k) = Raise e ->
  rate_limited e = false \/ k = 2%nat ->
  guarded_attempts E text report_date api_key (day_of_week_str report_date) w
  = (Raise e, called (after_retries k w)).
Proof.
  intros p Hsetup Hk Hretry He Hlast.
  rewrite (guarded_attempts_eq _ _ _ _ _ Hsetup).
  rewrite (retry_loop_after_retries _ _ _ _ k Hk Hretry).
  destruct k as [|[|[|k]]]; [| | |lia]; cbn [skipn];
    rewrite retry_loop_cons; fold p; cbn [after_retries calls]; rewrite He.
  1,2: destruct Hlast as [-> | ?]; [reflexivity | lia].
  cbn [max_retries Nat.sub Nat.ltb Nat.leb]. now rewrite andb_false_r.
Qed.

End RetryFacts.

(** X1: when the first [k] attempts ([k] at most 2) end in an exception
    whose text contains "429" and the next attempt returns [v],
    [synthesize_and_extract] returns [v] after [k + 1] calls of the model
    and sleeps of the first [k] of the delays 5, 10. *)
Theorem X1_returns_after_retries (E : externals) text report_date api_key w k v :
  let p := mkprompt text report_date (day_of_week_str report_date) in
  py_truthy api_key = true ->
  genai_setup E api_key = None ->
  (k <= 2)%nat ->
  (forall i, (i < k)%nat ->
     exists e, attempt_result E p (calls w + i) = Raise e /\ rate_limited e = true) ->
  attempt_result E p (calls w + k) = Ok v ->
  synthesize_and_extract E text report_date api_key w
  = (Ok v, mkworld (calls w + k + 1) (sleeps w ++ firstn k [5; 10]%Z) (commits w)).
Proof.
  intros p Hkey Hsetup Hk Hretry Hv.
  rewrite (synthesize_and_extract_returns E _ _ _ _ v (called (after_retries k w)) Hkey).
  - unfold called, after_retries, backoff. cbn [calls sleeps commits].
    now rewrite Nat.add_1_r.
  - now apply guarded_attempts_success_after.
Qed.

Lemma X1_returns_after_retries_witness :
  synthesize_and_extract (Double.externals_of 1 Double.anonymous_json)
    (PStr "t") (PStr "03/10/2025") Double.api_key Double.w0
  = (Ok Double.anonymous_annotation, mkworld 2 [5]%Z []).
Proof.
  apply (X1_returns_after_retries (Double.externals_of 1 Double.anonymous_json)
           (PStr "t") (PStr "03/10/2025") Double.api_key Double.w0 1
           Double.anonymous_annotation); try reflexivity; try lia.
  intros i Hi. exists Double.quota_error.
  assert (i = 0)%nat as -> by lia. split; reflexivity.
Defined.

(** X2: when the first [k] attempts ([k] at most 2) end in an exception
    whose text contains "429" and the next attempt ends in an exception [e]
    that does not, or is the third attempt, [synthesize_and_extract]
    returns the error annotation of [e] after [k + 1] calls and sleeps of
    the first [k] delays: the failing attempt is not followed by a
    sleep. *)
Theorem X2_degrades_after_retries (E : externals) text report_date api_key w k e :
  let p := mkprompt text report_date (day_of_week_str report_date) in
  py_truthy api_key = true ->
  genai_setup E api_key = None ->
  (k <= 2)%nat ->
  (forall i, (i < k)%nat ->
     exists e', attempt_result E p (calls w + i) = Raise e' /\ rate_limited e' = true) ->
  attempt_result E p (calls w + k) = Raise e ->
  rate_limited e = false \/ k = 2%nat ->
  synthesize_and_extract E text report_date api_key w
  = (Ok (error_annotation e),
     mkworld (calls w + k + 1) (sleeps w ++ firstn k [5; 10]%Z) (commits w)).
Proof.
  intros p Hkey Hsetup Hk Hretry He Hlast.
  rewrite (synthesize_and_extract_degrades E _ _ _ _ e (called (after_retries k w)) Hkey).
  - unfold called, after_retries, backoff. cbn [calls sleeps commits].
    now rewrite Nat.add_1_r.
  - now apply guarded_attempts_failure_after.
Qed.

Lemma X2_degrades_after_retries_witness :
  synthesize_and_extract Double.broken
    (PStr "t") (PStr "03/10/2025") Double.api_key Double.w0
  = (Ok (error_annotation "500 Internal error encountered."), mkworld 1 [] []).
Proof.
  apply (X2_degrades_after_retries Double.broken
           (PStr "t") (PStr "03/10/2025") Double.api_key Double.w0 0
           "500 Internal error encountered."); try reflexivity; try lia.
  left. reflexivity.
Defined.

(** X3: the retry test reads the text of any exception of the attempt,
    not its kind: when [json.loads] refuses the first answer with an error
    whose text contains "429" (a position, say), the attempt is retried as
    a rate-limited one, after a sleep of 5, and the second answer, if it
    parses, is returned. *)
Theorem X3_parse_error_naming_429_is_retried (E : externals)
    text report_date api_key w answer1 e answer2 v :
  let p := mkprompt text report_date (day_of_week_str report_date) in
  py_truthy api_key = true ->
  genai_setup E api_key = None ->
  generate_content E (calls w) p = Ok answer1 ->
  json_loads E (clean_response answer1) = Raise e ->
  Str.contains "429" e = true ->
  generate_content E (S (calls w)) p = Ok answer2 ->
  json_loads E (clean_response answer2) = Ok v ->
  synthesize_and_extract E text report_date api_key w
  = (Ok v, mkworld (calls w + 2) (sleeps w ++ [5]%Z) (commits w)).
Proof.
  intros p Hkey Hsetup H1 He H429 H2 Hv.
  rewrite (synthesize_and_extract_returns E _ _ _ _ v (called (after_retries 1 w)) Hkey).
  - unfold called, after_retries, backoff. cbn [calls sleeps commits firstn].
    replace (S (calls w + 1)) with (calls w + 2)%nat by lia. reflexivity.
  - apply guarded_attempts_success_after; [exact Hsetup | lia | |].
    + intros i Hi. assert (i = 0)%nat as -> by lia. exists e.
      rewrite Nat.add_0_r. unfold attempt_result. fold p. rewrite H1. now split.
    + rewrite Nat.add_1_r. unfold attempt_result. fold p. now rewrite H2.
Qed.

Lemma X3_parse_error_naming_429_is_retried_witness :
  synthesize_and_extract Double.cut_short
    (PStr "t") (PStr "03/10/2025") Double.api_key Double.w0
  = (Ok Double.anonymous_annotation, mkworld 2 [5]%Z []).
Proof.
  apply (X3_parse_error_naming_429_is_retried Double.cut_short
           (PStr "t") (PStr "03/10/2025") Double.api_key Double.w0
           "{" Double.char_429_error Double.anonymous_json
           Double.anonymous_annotation);
    reflexivity.
Defined.

(** What a call of [synthesize_and_extract] can do to the world. *)
Lemma extraction_envelope (E : externals) text report_date api_key w :
  exists v w' k,
    synthesize_and_extract E text report_date api_key w = (Ok v, w') /\
    commits w' = commits w /\
    (k <= 2)%nat /\
    sleeps w' = sleeps w ++ firstn k [5; 10]%Z /\
    (calls w' = calls w \/ calls w' = (calls w + k + 1)%nat).
Proof.
  unfold synthesize_and_extract.
  destruct (py_truthy api_key); cbn [negb].
  2:{ exists PNone, w, 0%nat. cbn [firstn]. rewrite app_nil_r.
      repeat split; [lia | now left]. }
  unfold try_except, guarded_attempts, bind at 1.
  destruct (genai_setup E api_key) as [e|]; cbn [run_setup].
  { exists (error_annotation e), w, 0%nat. cbn [firstn]. rewrite app_nil_r.
    unfold raise, ret. repeat split; [lia | now left]. }
  unfold ret at 1. cbn [seq max_retries].
  set (p := mkprompt text report_date (day_of_week_str report_date)).
  assert (Hend : forall (a : pyval) k,
             (k <= 2)%nat ->
             exists v w' k',
               (Ok a, called (after_retries k w)) = (Ok v, w') /\
               commits w' = commits w /\ (k' <= 2)%nat /\
               sleeps w' = sleeps w ++ firstn k' [5; 10]%Z /\
               (calls w' = calls w \/ calls w' = (calls w + k' + 1)%nat)).
  { intros a k Hk. exists a, (called (after_retries k w)), k.
    repeat split; [exact Hk | right; cbn; lia]. }
  assert (Hw0 : after_retries 0 w = w).
  { unfold after_retries. cbn [firstn]. rewrite app_nil_r, Nat.add_0_r. now destruct w. }
  assert (Hw1 : slept 5 (called w) = after_retries 1 w).
  { unfold after_retries, slept, called, backoff. cbn. now rewrite Nat.add_1_r. }
  assert (Hw2 : slept 10 (called (after_retries 1 w)) = after_retries 2 w).
  { unfold after_retries, slept, called, backoff. cbn. rewrite <- app_assoc.
    f_equal. lia. }
  rewrite retry_loop_cons. fold p.
  destruct (attempt_result E p (calls w)) as [v0|e0] eqn:H0.
  { replace (called w) with (called (after_retries 0 w)) by now rewrite Hw0.
    apply (Hend v0 0%nat). lia. }
  destruct (rate_limited e0); cbn [andb max_retries Nat.sub Nat.ltb Nat.leb].
  2:{ unfold ret.
      replace (called w) with (called (after_retries 0 w)) by now rewrite Hw0.
      apply (Hend (error_annotation e0) 0%nat). lia. }
  rewrite Hw1, retry_loop_cons. fold p.
  destruct (attempt_result E p (calls (after_retries 1 w))) as [v1|e1] eqn:H1.
  { apply (Hend v1 1%nat). lia. }
  destruct (rate_limited e1); cbn [andb max_retries Nat.sub Nat.ltb Nat.leb].
  2:{ unfold ret. apply (Hend (error_annotation e1) 1%nat). lia. }
  change (5 * 2)%Z with 10%Z. rewrite Hw2, retry_loop_cons. fold p.
  destruct (attempt_result E p (calls (after_retries 2 w))) as [v2|e2] eqn:H2.
  { apply (Hend v2 2%nat). lia. }
  rewrite andb_false_r. unfold ret. apply (Hend (error_annotation e2) 2%nat). lia.
Qed.

(** X4: whatever the model and [json.loads] do, [synthesize_and_extract]
    returns a value and raises nothing, commits nothing, sleeps none, the
    first or the first two of the delays 5, 10 (15 seconds at most), and
    calls the model either not at all or once more than it sleeps (three
    times at most). *)
Theorem X4_extraction_envelope (E : externals) text report_date api_key w :
  exists v w' k,
    synthesize_and_extract E text report_date api_key w = (Ok v, w') /\
    commits w' = commits w /\
    (k <= 2)%nat /\
    sleeps w' = sleeps w ++ firstn k [5; 10]%Z /\
    (calls w' = calls w \/ calls w' = (calls w + k + 1)%nat).
Proof. apply extraction_envelope. Qed.

(** ** The weekday label *)

Lemma weekday_range (dt : Date.date) : (0 <= Date.weekday dt < 7)%Z.
Proof. unfold Date.weekday. apply Z.mod_pos_bound. lia. Qed.

Lemma days_lookup (n : nat) :
  (n < 7)%nat -> exists label, days !! n = Some label /\ In label days.
Proof.
  intros H. do 7 (destruct n as [|n]; [eexists; split; [reflexivity | simpl; tauto]|]).
  lia.
Qed.

(** X5: a report date that [strptime] accepts has a month from 1 to 12, a
    day the month has and a year from 1 to 9999; its [weekday()] is from 0
    to 6, so that [days[dt.weekday()]] never fails and the label is one of
    the seven names; the label is "Desconocido" exactly when the value is
    not a text that [strptime] accepts. *)
Theorem X5_weekday_label_is_a_day (v : pyval) :
  (forall s dt,
      v = PStr s -> Date.strptime s = Some dt ->
      Date.valid (Date.year dt) (Date.month dt) (Date.day dt) = true /\
      days !! Z.to_nat (Date.weekday dt) = Some (day_of_week_str v) /\
      In (day_of_week_str v) days) /\
  (day_of_week_str v = "Desconocido" <->
   ~ exists s dt, v = PStr s /\ Date.strptime s = Some dt).
Proof.
  assert (Hparsed : forall s dt,
             Date.strptime s = Some dt ->
             Date.valid (Date.year dt) (Date.month dt) (Date.day dt) = true /\
             days !! Z.to_nat (Date.weekday dt) = Some (day_of_week_str (PStr s)) /\
             In (day_of_week_str (PStr s)) days).
  { intros s dt Hs. split.
    - unfold Date.strptime in Hs.
      destruct (Date.matches s) as [|[[[m d] y] rest] _]; [discriminate|].
      destruct (rest =? ""); [|discriminate].
      destruct (Date.valid _ _ _) eqn:Hvalid; [|discriminate].
      injection Hs as <-. exact Hvalid.
    - unfold day_of_week_str. rewrite Hs.
      destruct (days_lookup (Z.to_nat (Date.weekday dt))) as (label & Hl & Hin).
      { pose proof (weekday_range dt). lia. }
      rewrite Hl. split; [reflexivity | exact Hin]. }
  split.
  - intros s dt -> Hs. now apply Hparsed.
  - split.
    + intros Hlabel (s & dt & -> & Hs).
      destruct (Hparsed s dt Hs) as (_ & _ & Hin). rewrite Hlabel in Hin.
      simpl in Hin. repeat (destruct Hin as [Hin|Hin]; [discriminate|]). exact Hin.
    + intros Hno. destruct v; try reflexivity.
      unfold day_of_week_str. destruct (Date.strptime s) as [dt|] eqn:Hs; [|reflexivity].
      destruct Hno. eauto.
Qed.

Lemma X5_weekday_label_is_a_day_witness :
  days !! Z.to_nat (Date.weekday (Date.mkdate 2025 12 31))
  = Some (day_of_week_str (PStr "12/31/٢٠٢٥")) /\
  day_of_week_str (PStr "12/31/٢٠٢٥") = "Miércoles".
Proof.
  split; [|reflexivity].
  apply (proj1 (X5_weekday_label_is_a_day (PStr "12/31/٢٠٢٥"))
           "12/31/٢٠٢٥" (Date.mkdate 2025 12 31)); reflexivity.
Defined.

(** ** The cleaning of the answer *)

Open Scope string_scope.

Lemma clean_response_strip (t u : string) :
  Str.strip t = Str.strip u -> clean_response t = clean_response u.
Proof. intros H. unfold clean_response. now rewrite H. Qed.

(** X6: each of the two fences is looked for on its own: an object (a text
    from an opening to a closing brace) with both fences, with the leading
    "```json" only, with the trailing "```" only, or with none, is cleaned
    to the object. *)
Theorem X6_each_fence_is_optional (body : string) :
  let object := "{" ++ body ++ "}" in
  clean_response ("```json" ++ object ++ "```") = object /\
  clean_response ("```json" ++ object) = object /\
  clean_response (object ++ "```") = object /\
  clean_response object = object.
Proof.
  intros object.
  assert (Hlast : Str.last_char object = Some "}"%char).
  { unfold object. change ("{" ++ body ++ "}") with ("{" ++ (body ++ "}")).
    rewrite !last_char_app by (try apply app_nonempty; discriminate). reflexivity. }
  assert (Hnofence : Str.endswith "```" object = false).
  { destruct (Str.endswith "```" object) eqn:He; [|reflexivity].
    apply endswith_last_char in He; [|discriminate]. rewrite Hlast in He. discriminate. }
  split; [apply clean_response_fenced|]. split; [|split].
  - unfold clean_response. rewrite strip_id.
    + replace (Str.startswith "```json" ("```json" ++ object)) with true by reflexivity.
      replace (Str.drop 7 ("```json" ++ object)) with object by reflexivity.
      now rewrite Hnofence.
    + reflexivity.
    + apply (rstrip1_none _ "}"); [|reflexivity].
      rewrite last_char_app; [exact Hlast|]. unfold object. discriminate.
  - unfold clean_response. rewrite strip_id.
    + replace (Str.startswith "```json" (object ++ "```")) with false by reflexivity.
      rewrite endswith_app. apply (drop_last_app object "```").
    + reflexivity.
    + apply (rstrip1_none _ "`"); [|reflexivity].
      rewrite last_char_app by discriminate. reflexivity.
  - apply clean_response_object.
Qed.

Lemma string_cons_app (x : ascii) (a b : string) :
  String x a ++ b = String x (a ++ b).
Proof. reflexivity. Qed.

Lemma string_app_nil_r (a : string) : a ++ "" = a.
Proof.
  induction a as [|x a IH]; [reflexivity|]. now rewrite string_cons_app, IH.
Qed.

Lemma string_app_assoc (a b c : string) : (a ++ b) ++ c = a ++ b ++ c.
Proof.
  induction a as [|x a IH]; [reflexivity|]. now rewrite !string_cons_app, IH.
Qed.

Lemma startswith_app (w s : string) : Str.startswith w (w ++ s) = true.
Proof. induction w as [|c w IH]; simpl; [reflexivity|]. now rewrite Ascii.eqb_refl. Qed.

Lemma drop_app (w s : string) : Str.drop (String.length w) (w ++ s) = s.
Proof. induction w as [|c w IH]; simpl; [now destruct s | exact IH]. Qed.

(** A prefix of [w ++ s] is a prefix of [w], or [w] is a prefix of it. *)
Lemma startswith_app_inv (q w s : string) :
  Str.startswith q (w ++ s) = true ->
  Str.startswith q w = true \/ Str.startswith w q = true.
Proof.
  revert w. induction q as [|c q IH]; intros w H; [now left|].
  destruct w as [|c' w]; [now right|].
  simpl in *. apply andb_true_iff in H as [Hc H].
  rewrite Hc. apply Ascii.eqb_eq in Hc as ->. rewrite Ascii.eqb_refl. simpl.
  now apply IH.
Qed.

(** A suffix of [s ++ w] is a suffix of [w], or [w] is a suffix of it. *)
Lemma endswith_app_inv (q s w : string) :
  Str.endswith q (s ++ w) = true ->
  Str.endswith q w = true \/ Str.endswith w q = true.
Proof.
  induction s as [|c s IH]; intros H; [now left|].
  simpl in H. apply orb_true_iff in H as [H|H]; [|now apply IH].
  right. apply String.eqb_eq in H. subst q.
  apply (endswith_app (String c s) w).
Qed.

Lemma whitespace_is_unambiguous : whitespace_unambiguous = true.
Proof. vm_compute. reflexivity. Qed.

Lemma whitespace_same (w w' : string) :
  In w Str.whitespace -> In w' Str.whitespace ->
  Str.startswith w' w || Str.startswith w w'
  || Str.endswith w' w || Str.endswith w w' = true ->
  w = w'.
Proof.
  intros Hw Hw' H. pose proof whitespace_is_unambiguous as Hall.
  unfold whitespace_unambiguous in Hall. rewrite forallb_forall in Hall.
  specialize (Hall w Hw). rewrite forallb_forall in Hall. specialize (Hall w' Hw').
  rewrite H in Hall. simpl in Hall. now apply String.eqb_eq.
Qed.

Lemma whitespace_nonempty (w : string) :
  In w Str.whitespace -> (1 <= String.length w)%nat.
Proof.
  intros H.
  assert (Hall : forallb (fun w => (1 <=? String.length w)%nat) Str.whitespace = true)
    by (vm_compute; reflexivity).
  rewrite forallb_forall in Hall. apply Nat.leb_le. now apply Hall.
Qed.

(** One whitespace character in front is what [lstrip1] removes. *)
Lemma lstrip1_whitespace (w s : string) :
  In w Str.whitespace -> Str.lstrip1 (w ++ s) = Some s.
Proof.
  intros Hw. unfold Str.lstrip1.
  destruct (List.find _ _) as [w'|] eqn:Hf.
  - apply find_some in Hf as [Hw' Hs].
    assert (w = w') as <-.
    { apply (whitespace_same w w' Hw Hw').
      destruct (startswith_app_inv _ _ _ Hs) as [-> | ->]; simpl;
        rewrite ?orb_true_r; reflexivity. }
    now rewrite drop_app.
  - apply (find_none _ _ Hf) in Hw. simpl in Hw. now rewrite startswith_app in Hw.
Qed.

(** One whitespace character at the end is what [rstrip1] removes. *)
Lemma rstrip1_whitespace (s w : string) :
  In w Str.whitespace -> Str.rstrip1 (s ++ w) = Some s.
Proof.
  intros Hw. unfold Str.rstrip1.
  destruct (List.find _ _) as [w'|] eqn:Hf.
  - apply find_some in Hf as [Hw' Hs].
    assert (w = w') as <-.
    { apply (whitespace_same w w' Hw Hw').
      destruct (endswith_app_inv _ _ _ Hs) as [-> | ->]; simpl;
        rewrite ?orb_true_r; reflexivity. }
    now rewrite drop_last_app.
  - apply (find_none _ _ Hf) in Hw. simpl in Hw. now rewrite endswith_app in Hw.
Qed.

Lemma glue_length (ws : list string) (s : string) :
  Forall (fun w => In w Str.whitespace) ws ->
  (length ws <= String.length (glue ws ++ s))%nat.
Proof.
  induction 1 as [|w ws Hw _ IH]; simpl; [lia|].
  rewrite string_app_assoc, string_length_app.
  pose proof (whitespace_nonempty w Hw). lia.
Qed.

Lemma iter_lstrip_glue (ws : list string) (s : string) :
  Forall (fun w => In w Str.whitespace) ws ->
  Str.lstrip1 s = None ->
  forall fuel, (length ws <= fuel)%nat ->
  Str.iter_strip Str.lstrip1 fuel (glue ws ++ s) = s.
Proof.
  intros Hws Hs. induction Hws as [|w ws Hw _ IH]; intros fuel Hfuel.
  - simpl. now apply iter_strip_none.
  - destruct fuel as [|fuel]; [simpl in Hfuel; lia|].
    cbn [glue fold_right Str.iter_strip]. fold (glue ws).
    rewrite string_app_assoc, (lstrip1_whitespace w _ Hw).
    apply IH. simpl in Hfuel. lia.
Qed.

Lemma glue_snoc (ws : list string) (w : string) :
  glue (ws ++ [w])%list = glue ws ++ w.
Proof.
  induction ws as [|x ws IH]; cbn [glue fold_right app].
  - now rewrite string_app_nil_r.
  - fold (glue (ws ++ [w])%list). fold (glue ws). now rewrite IH, string_app_assoc.
Qed.

Lemma iter_rstrip_glue (ws : list string) (s : string) :
  Forall (fun w => In w Str.whitespace) ws ->
  Str.rstrip1 s = None ->
  forall fuel, (length ws <= fuel)%nat ->
  Str.iter_strip Str.rstrip1 fuel (s ++ glue ws) = s.
Proof.
  intros Hws Hs. induction ws as [|w ws IH] using rev_ind; intros fuel Hfuel.
  - cbn [glue fold_right]. rewrite string_app_nil_r. now apply iter_strip_none.
  - apply Forall_app in Hws as [Hws Hw]. apply Forall_cons in Hw as [Hw _].
    rewrite length_app in Hfuel. simpl in Hfuel.
    destruct fuel as [|fuel]; [lia|].
    rewrite glue_snoc, <- string_app_assoc. cbn [Str.iter_strip].
    rewrite (rstrip1_whitespace _ w Hw). apply IH; [exact Hws | lia].
Qed.

(** [strip] removes the whitespace characters around a text that neither
    starts nor ends with one, and nothing else. *)
Lemma strip_glue (before after : list string) (s : string) :
  Forall (fun w => In w Str.whitespace) before ->
  Forall (fun w => In w Str.whitespace) after ->
  Str.lstrip1 (s ++ glue after) = None ->
  Str.rstrip1 s = None ->
  Str.strip (glue before ++ s ++ glue after) = s.
Proof.
  intros Hb Ha Hl Hr. unfold Str.strip.
  rewrite (iter_lstrip_glue before _ Hb Hl) by now apply glue_length.
  apply (iter_rstrip_glue after s Ha Hr).
  rewrite string_length_app.
  pose proof (glue_length after "" Ha) as Hlen.
  rewrite string_app_nil_r in Hlen. lia.
Qed.

(** X7: [strip] comes first: whitespace characters (newlines, spaces,
    tabs, no-break spaces, ...) before the leading "```json" and after
    the trailing "```" do not matter; the answer is cleaned to what is
    between the fences. *)
Theorem X7_whitespace_around_the_fences (before after : list string) (inner : string) :
  Forall (fun w => In w Str.whitespace) before ->
  Forall (fun w => In w Str.whitespace) after ->
  clean_response (glue before ++ ("```json" ++ inner ++ "```") ++ glue after) = inner.
Proof.
  intros Hb Ha.
  rewrite <- (clean_response_fenced inner) at 2.
  apply clean_response_strip.
  assert (Hr : Str.rstrip1 ("```json" ++ inner ++ "```") = None).
  { apply (rstrip1_none _ "`"); [|reflexivity].
    change ("```json" ++ inner ++ "```") with ("```json" ++ (inner ++ "```")).
    rewrite !last_char_app by (try apply app_nonempty; discriminate). reflexivity. }
  rewrite strip_glue; [|assumption|assumption|reflexivity|exact Hr].
  symmetry. apply strip_id; [reflexivity | exact Hr].
Qed.

Lemma whitespace_by_test (w : string) :
  existsb (String.eqb w) Str.whitespace = true -> In w Str.whitespace.
Proof.
  intros H. apply existsb_exists in H as (w' & Hin & Heq).
  apply String.eqb_eq in Heq. now subst.
Qed.

Lemma X7_whitespace_around_the_fences_witness :
  clean_response
    (glue [" "; Double.newline]
     ++ ("```json" ++ Double.padded_json ++ "```")
     ++ glue [Double.newline; Str.of_codes [194; 160]; Double.newline])
  = Double.padded_json.
Proof.
  apply (X7_whitespace_around_the_fences [" "; Double.newline]
           [Double.newline; Str.of_codes [194; 160]; Double.newline]
           Double.padded_json).
  - constructor; [apply whitespace_by_test; reflexivity|].
    constructor; [apply whitespace_by_test; reflexivity|]. constructor.
  - constructor; [apply whitespace_by_test; reflexivity|].
    constructor; [apply whitespace_by_test; reflexivity|].
    constructor; [apply whitespace_by_test; reflexivity|]. constructor.
Defined.

(** ** The endpoint without a run *)

(** X8: a GET answers the usage page, and any other request answers
    "Failed to retrieve API key." (500) when the secret manager raises or
    gives the empty text; in both cases nothing is read, called, slept or
    committed.  With a non-empty key the answer is the one of a run:
    complete or failed. *)
Theorem X8_no_run_without_key (E : externals) method docs w :
  (method = "GET" -> process_denuncias E method docs w = (Usage, w)) /\
  (method <> "GET" ->
   (forall key, access_secret_version E = Ok key -> key = "") ->
   process_denuncias E method docs w = (NoApiKey, w)) /\
  (method <> "GET" ->
   (exists key, access_secret_version E = Ok key /\ key <> "") ->
   exists r w',
     process_denuncias E method docs w = (r, w') /\
     ((exists n, r = Complete n) \/ (exists e, r = Failed e))).
Proof.
  unfold process_denuncias. split; [|split].
  - intros ->. reflexivity.
  - intros Hm Hkey. apply String.eqb_neq in Hm. rewrite Hm.
    unfold run, get_gemini_api_key.
    destruct (access_secret_version E) as [key|e]; [|reflexivity].
    rewrite (Hkey key eq_refl). reflexivity.
  - intros Hm (key & Hkey & Hne). apply String.eqb_neq in Hm. rewrite Hm.
    unfold run, get_gemini_api_key. rewrite Hkey. cbn [py_truthy].
    apply String.eqb_neq in Hne. rewrite Hne. cbn [negb].
    unfold bind.
    destruct (for_docs E (PStr key) docs _ w) as [[st|e] w1]; [|eauto 7].
    destruct (stream_error E) as [e|]; cbn [run_setup raise ret]; [eauto 7|].
    destruct ((if (0 <? batch_count st)%nat then commit E (batch st) else ret ()) w1)
      as [[[]|e] w2]; unfold ret; eauto 7.
Qed.

Lemma X8_no_run_without_key_witness :
  process_denuncias Double.no_secret "POST" (Double.stream 3) Double.w0
  = (NoApiKey, Double.w0).
Proof.
  apply (proj1 (proj2 (X8_no_run_without_key Double.no_secret "POST"
                         (Double.stream 3) Double.w0))).
  - discriminate.
  - intros key H. discriminate H.
Defined.

(** ** The enrichment of one record *)

Section EnrichFacts.

Context (E : externals).

Lemma set_extracted_fields doc_data d s w :
  dict_get d "es_anonima" (PStr "NO") = PStr s ->
  exists doc',
    set_extracted E doc_data (PDict d) w = (Ok doc', w) /\
    doc' !! "Síntesis" = Some (dict_get d "sintesis" (PStr "")) /\
    doc' !! "Tiempo" = Some (dict_get d "tiempo" (PStr "")) /\
    doc' !! "Modo" = Some (dict_get d "modo" (PStr "")) /\
    doc' !! "Circunstancia" = Some (dict_get d "circunstancia" (PStr "")) /\
    doc' !! "Alcaldía" = Some (dict_get d "alcaldia" (PStr "")) /\
    doc' !! "¿Es anónima?" = Some (PStr (str_upper E s)).
Proof.
  intros Hs. unfold set_extracted, py_get, py_upper, bind, ret. rewrite Hs.
  destruct (str_upper E s =? "SI"); eexists; (split; [reflexivity|]);
    repeat split; rewrite !lookup_insert_ne by discriminate; apply lookup_insert_eq.
Qed.

Lemma enrich_with_annotation doc_data api_key w v w' :
  py_truthy (dict_get doc_data "Transcript" (PStr "")) = true ->
  synthesize_and_extract E (dict_get doc_data "Transcript" (PStr ""))
    (dict_get doc_data "Date" (PStr "Fecha desconocida")) api_key w = (Ok v, w') ->
  enrich E doc_data api_key w
  = if py_truthy v then set_extracted E doc_data v w' else (Ok doc_data, w').
Proof.
  intros Ht Hx. unfold enrich. rewrite Ht. unfold bind. rewrite Hx.
  now destruct (py_truthy v).
Qed.

(** What [enrich] raises comes from [set_extracted]. *)
Lemma enrich_raise_inv doc_data api_key w e w' :
  enrich E doc_data api_key w = (Raise e, w') ->
  exists v,
    py_truthy (dict_get doc_data "Transcript" (PStr "")) = true /\
    synthesize_and_extract E (dict_get doc_data "Transcript" (PStr ""))
      (dict_get doc_data "Date" (PStr "Fecha desconocida")) api_key w = (Ok v, w') /\
    py_truthy v = true /\
    ((forall d, v <> PDict d) /\ e = attribute_error v "get"
     \/
     exists d, v = PDict d /\
       (forall s, dict_get d "es_anonima" (PStr "NO") <> PStr s) /\
       e = attribute_error (dict_get d "es_anonima" (PStr "NO")) "upper").
Proof.
  intros H.
  destruct (py_truthy (dict_get doc_data "Transcript" (PStr ""))) eqn:Ht.
  2:{ unfold enrich in H. rewrite Ht in H. discriminate. }
  destruct (synthesize_and_extract_total E (dict_get doc_data "Transcript" (PStr ""))
              (dict_get doc_data "Date" (PStr "Fecha desconocida")) api_key w)
    as (v & w1 & Hx).
  rewrite (enrich_with_annotation _ _ _ _ _ Ht Hx) in H.
  destruct (py_truthy v) eqn:Hv; [|discriminate].
  assert (w1 = w') as ->.
  { unfold set_extracted, py_get, py_upper, bind, ret, raise in H.
    destruct v; try (injection H as _ <-; reflexivity).
    destruct (dict_get d "es_anonima" (PStr "NO")); try (injection H as _ <-; reflexivity).
    destruct (str_upper E s =? "SI"); discriminate. }
  exists v. repeat split; try assumption.
  destruct v as [| | | | |d|];
    try (left; split; [discriminate|];
         rewrite set_extracted_not_a_dict in H by discriminate; congruence).
  right. exists d. split; [reflexivity|].
  destruct (dict_get d "es_anonima" (PStr "NO")) eqn:Ha;
    try (rewrite set_extracted_not_a_text in H by (rewrite Ha; discriminate);
         rewrite Ha in H; split; [discriminate | congruence]).
  destruct (set_extracted_dict E doc_data d s w' Ha) as (doc' & Heq & _).
  rewrite Heq in H. discriminate.
Qed.

(** What [enrich] returns is classified. *)
Lemma enrich_classified doc_data api_key w doc' w' :
  enrich E doc_data api_key w = (Ok doc', w') -> classified doc_data doc'.
Proof.
  intros H.
  destruct (py_truthy (dict_get doc_data "Transcript" (PStr ""))) eqn:Ht.
  - destruct (synthesize_and_extract_total E (dict_get doc_data "Transcript" (PStr ""))
                (dict_get doc_data "Date" (PStr "Fecha desconocida")) api_key w)
      as (v & w1 & Hx).
    rewrite (enrich_with_annotation _ _ _ _ _ Ht Hx) in H.
    destruct (py_truthy v).
    + destruct (set_extracted_ok_inv E _ _ _ _ _ H) as (d & s & -> & Hs).
      destruct (set_extracted_dict E doc_data d s w1 Hs) as (doc'' & Heq & Han & Hreg & _).
      rewrite Heq in H. injection H as <- <-.
      right. right. exists (str_upper E s). now split.
    + injection H as <- <-. now left.
  - unfold enrich in H. rewrite Ht in H. unfold ret in H. injection H as <- <-.
    right. left. unfold set_not_available. split.
    + now rewrite lookup_insert_ne, lookup_insert_eq.
    + apply lookup_insert_eq.
Qed.

End EnrichFacts.

(** X9: an answer that parses to a falsy value (the empty object, the
    empty list, [null], 0, [false], the empty text) is dropped without a
    word: the record is staged as it was read, with none of the derived
    fields and no [Registro], after the one call of the model. *)
Theorem X9_falsy_answer_leaves_the_record_as_read (E : externals)
    doc_data api_key w answer v :
  let transcript := dict_get doc_data "Transcript" (PStr "") in
  let report_date := dict_get doc_data "Date" (PStr "Fecha desconocida") in
  let p := mkprompt transcript report_date (day_of_week_str report_date) in
  py_truthy transcript = true ->
  py_truthy api_key = true ->
  genai_setup E api_key = None ->
  generate_content E (calls w) p = Ok answer ->
  json_loads E (clean_response answer) = Ok v ->
  py_truthy v = false ->
  enrich E doc_data api_key w = (Ok doc_data, called w).
Proof.
  intros transcript report_date p Ht Hkey Hsetup Hanswer Hv Hfalsy.
  assert (Hx : synthesize_and_extract E transcript report_date api_key w
               = (Ok v, called w)).
  { apply (synthesize_and_extract_returns E _ _ _ _ _ _ Hkey).
    rewrite (guarded_attempts_eq E _ _ _ _ _ Hsetup), retry_loop_cons.
    unfold attempt_result. fold p. now rewrite Hanswer, Hv. }
  rewrite (enrich_with_annotation E _ _ _ _ _ Ht Hx). now rewrite Hfalsy.
Qed.

Lemma X9_falsy_answer_leaves_the_record_as_read_witness :
  enrich (Double.externals_of 0 "{}") Double.with_transcript Double.api_key Double.w0
  = (Ok Double.with_transcript, called Double.w0).
Proof.
  apply (X9_falsy_answer_leaves_the_record_as_read (Double.externals_of 0 "{}")
           Double.with_transcript Double.api_key Double.w0 "{}" (PDict ∅));
    reflexivity.
Defined.

(** X10: [enrich] raises in two cases only, both an [AttributeError] on a
    truthy answer: the answer is not a dict (no [get]), or its
    [es_anonima] is not a text (no [upper]); and in these two cases it
    does raise.  No error of the model, of [json.loads] or of the date
    leaves [enrich]. *)
Theorem X10_enrich_raises_on_ill_shaped_answers_only (E : externals)
    doc_data api_key w v w' :
  let transcript := dict_get doc_data "Transcript" (PStr "") in
  let report_date := dict_get doc_data "Date" (PStr "Fecha desconocida") in
  (forall e w1,
      enrich E doc_data api_key w = (Raise e, w1) ->
      exists a, e = attribute_error a "get" \/ e = attribute_error a "upper") /\
  (py_truthy transcript = true ->
   synthesize_and_extract E transcript report_date api_key w = (Ok v, w') ->
   py_truthy v = true ->
   ((forall d, v <> PDict d) ->
    enrich E doc_data api_key w = (Raise (attribute_error v "get"), w')) /\
   (forall d, v = PDict d ->
      (forall s, dict_get d "es_anonima" (PStr "NO") <> PStr s) ->
      enrich E doc_data api_key w
      = (Raise (attribute_error (dict_get d "es_anonima" (PStr "NO")) "upper"), w'))).
Proof.
  intros transcript report_date. split.
  - intros e w1 H.
    destruct (enrich_raise_inv E _ _ _ _ _ H)
      as (a & _ & _ & _ & [[_ ->] | (d & _ & _ & ->)]); eauto.
  - intros Ht Hx Hv. rewrite (enrich_with_annotation E _ _ _ _ _ Ht Hx), Hv. split.
    + intros Hnd. now apply set_extracted_not_a_dict.
    + intros d -> Hnt. now apply set_extracted_not_a_text.
Qed.

Lemma X10_enrich_raises_on_ill_shaped_answers_only_witness :
  enrich (Double.externals_of 0 "[1]") Double.with_transcript Double.api_key Double.w0
  = (Raise "'list' object has no attribute 'get'", called Double.w0).
Proof.
  apply (proj2 (X10_enrich_raises_on_ill_shaped_answers_only
                  (Double.externals_of 0 "[1]") Double.with_transcript
                  Double.api_key Double.w0 (PList [PInt 1]) (called Double.w0)));
    try reflexivity.
  intros d. discriminate.
Defined.

(** X11: from a non-empty dict with a text under [es_anonima] (or
    without that key) the five fields [Síntesis], [Tiempo], [Modo],
    [Circunstancia], [Alcaldía] take the values under [sintesis],
    [tiempo], [modo], [circunstancia], [alcaldia] as they are, of whatever
    type, and the empty text where the key is missing; [¿Es anónima?]
    takes the upper-cased text, "NO" upper-cased where the key is
    missing. *)
Theorem X11_fields_copied_with_defaults (E : externals) doc_data api_key w d s w' :
  let transcript := dict_get doc_data "Transcript" (PStr "") in
  let report_date := dict_get doc_data "Date" (PStr "Fecha desconocida") in
  py_truthy transcript = true ->
  synthesize_and_extract E transcript report_date api_key w = (Ok (PDict d), w') ->
  py_truthy (PDict d) = true ->
  dict_get d "es_anonima" (PStr "NO") = PStr s ->
  exists doc',
    enrich E doc_data api_key w = (Ok doc', w') /\
    doc' !! "Síntesis" = Some (default (PStr "") (d !! "sintesis")) /\
    doc' !! "Tiempo" = Some (default (PStr "") (d !! "tiempo")) /\
    doc' !! "Modo" = Some (default (PStr "") (d !! "modo")) /\
    doc' !! "Circunstancia" = Some (default (PStr "") (d !! "circunstancia")) /\
    doc' !! "Alcaldía" = Some (default (PStr "") (d !! "alcaldia")) /\
    doc' !! "¿Es anónima?" = Some (PStr (str_upper E s)) /\
    (d !! "es_anonima" = None -> s = "NO").
Proof.
  intros transcript report_date Ht Hx Hd Hs.
  destruct (set_extracted_fields E doc_data d s w' Hs)
    as (doc' & Heq & H1 & H2 & H3 & H4 & H5 & H6).
  exists doc'. rewrite (enrich_with_annotation E _ _ _ _ _ Ht Hx), Hd.
  repeat split; try assumption.
  intros Hnone. unfold dict_get in Hs. rewrite Hnone in Hs. simpl in Hs. congruence.
Qed.

Lemma X11_fields_copied_with_defaults_witness :
  let d : gmap string pyval := {[ "es_anonima" := PStr "si" ]} in
  exists doc',
    enrich (Double.externals_of 0 Double.anonymous_json) Double.with_transcript
      Double.api_key Double.w0 = (Ok doc', called Double.w0) /\
    doc' !! "Síntesis" = Some (default (PStr "") (d !! "sintesis")) /\
    doc' !! "Tiempo" = Some (default (PStr "") (d !! "tiempo")) /\
    doc' !! "Modo" = Some (default (PStr "") (d !! "modo")) /\
    doc' !! "Circunstancia" = Some (default (PStr "") (d !! "circunstancia")) /\
    doc' !! "Alcaldía" = Some (default (PStr "") (d !! "alcaldia")) /\
    doc' !! "¿Es anónima?" = Some (PStr (Str.ascii_upper "si")) /\
    (d !! "es_anonima" = None -> "si" = "NO").
Proof.
  intros d.
  apply (X11_fields_copied_with_defaults
           (Double.externals_of 0 Double.anonymous_json) Double.with_transcript
           Double.api_key Double.w0 d "si" (called Double.w0));
    reflexivity.
Defined.

(** X12: in every record [enrich] returns, [Registro] goes with the
    [¿Es anónima?] written beside it: both are "N/A", or [¿Es anónima?] is
    a text and [Registro] is "Aviso" when that text is "SI" and "Denuncia"
    when it is not, or the record is the source record untouched; and so
    it is for every write a completed run has committed. *)
Theorem X12_registro_goes_with_es_anonima (E : externals) :
  (forall doc_data api_key w doc' w',
      enrich E doc_data api_key w = (Ok doc', w') -> classified doc_data doc') /\
  (forall method docs w n w',
      process_denuncias E method docs w = (Complete n, w') ->
      exists new,
        commits w' = (commits w ++ new)%list /\
        Forall2 (fun src wr => fst wr = fst src /\ classified (snd src) (snd wr))
          docs (concat new)).
Proof.
  split; [apply enrich_classified|].
  intros method docs w n w' H.
  destruct (process_denuncias_spec E method docs w) as (new & Hc & _ & Hn).
  rewrite H in Hc, Hn. exists new. split; [exact Hc|].
  destruct (Hn n eq_refl) as (_ & _ & Hst).
  eapply Forall2_impl; [exact Hst|].
  intros src wr [Hid (w1 & w2 & Hen)]. split; [exact Hid|].
  exact (enrich_classified E _ _ _ _ _ Hen).
Qed.

Lemma X12_registro_goes_with_es_anonima_witness :
  classified Double.with_transcript
    (<["Registro" := PStr "Aviso"]>
       (<["¿Es anónima?" := PStr "SI"]>
          (<["Alcaldía" := PStr ""]>
             (<["Circunstancia" := PStr ""]>
                (<["Modo" := PStr ""]>
                   (<["Tiempo" := PStr ""]>
                      (<["Síntesis" := PStr ""]> Double.with_transcript))))))).
Proof.
  apply (proj1 (X12_registro_goes_with_es_anonima
                  (Double.externals_of 0 Double.anonymous_json))
           Double.with_transcript Double.api_key Double.w0 _ (called Double.w0)).
  reflexivity.
Defined.

(** ** Runs that fail, and what runs cost *)

Open Scope list_scope.

Section RunFacts.

Context (E : externals).

Local Arguments Nat.leb : simpl never.
Local Arguments Nat.ltb : simpl never.

Lemma for_docs_app api_key pre post :
  forall st w,
    for_docs E api_key (pre ++ post) st w
    = match for_docs E api_key pre st w with
      | (Ok st1, w1) => for_docs E api_key post st1 w1
      | (Raise e, w1) => (Raise e, w1)
      end.
Proof.
  induction pre as [|doc pre IH]; intros st w; [reflexivity|].
  cbn [app for_docs]. unfold bind.
  destruct (process_doc E api_key st doc w) as [[st1|e] w1]; [apply IH | reflexivity].
Qed.

(** [set_extracted] leaves the world as it is. *)
Lemma set_extracted_world doc_data v w r w' :
  set_extracted E doc_data v w = (r, w') -> w' = w.
Proof.
  unfold set_extracted, py_get, py_upper, bind, ret, raise.
  destruct v; try (intros [= _ <-]; reflexivity).
  destruct (dict_get d "es_anonima" (PStr "NO")); try (intros [= _ <-]; reflexivity).
  destruct (str_upper E s =? "SI"); intros [= _ <-]; reflexivity.
Qed.

(** What [enrich] can do to the world: what one extraction can do. *)
Lemma enrich_world doc_data api_key w r w' :
  enrich E doc_data api_key w = (r, w') ->
  exists k,
    (k <= 2)%nat /\
    commits w' = commits w /\
    sleeps w' = sleeps w ++ firstn k [5; 10]%Z /\
    (calls w <= calls w' <= calls w + 3)%nat.
Proof.
  unfold enrich.
  destruct (py_truthy (dict_get doc_data "Transcript" (PStr ""))).
  - destruct (extraction_envelope E (dict_get doc_data "Transcript" (PStr ""))
                (dict_get doc_data "Date" (PStr "Fecha desconocida")) api_key w)
      as (v & w1 & k & Hx & Hc & Hk & Hs & Hcalls).
    unfold bind. rewrite Hx.
    assert (Hw1 : exists k, (k <= 2)%nat /\ commits w1 = commits w /\
                            sleeps w1 = sleeps w ++ firstn k [5; 10]%Z /\
                            (calls w <= calls w1 <= calls w + 3)%nat).
    { exists k. repeat split; try assumption; lia. }
    destruct (py_truthy v).
    + intros H. now rewrite (set_extracted_world _ _ _ _ _ H).
    + unfold ret. now intros [= _ <-].
  - unfold ret. intros [= _ <-]. exists 0%nat. cbn [firstn]. rewrite app_nil_r.
    repeat split; lia.
Qed.

Lemma total_sleep_app w l :
  fold_right Z.add 0%Z (sleeps w ++ l) = (total_sleep w + fold_right Z.add 0 l)%Z.
Proof.
  unfold total_sleep. induction (sleeps w) as [|z zs IH]; simpl; [lia|].
  rewrite IH. lia.
Qed.

Lemma backoff_sum k :
  (0 <= fold_right Z.add 0 (firstn k [5; 10]) <= 15)%Z.
Proof. destruct k as [|[|[|k]]]; simpl; lia. Qed.

(** One iteration: at most three calls; the sleeps are those of the
    extraction and, unless [enrich] raised, the pause of 2. *)
Lemma process_doc_cost api_key st doc w r w' :
  process_doc E api_key st doc w = (r, w') ->
  (calls w <= calls w' <= calls w + 3)%nat /\
  (total_sleep w <= total_sleep w' <= total_sleep w + 17)%Z /\
  (forall st', r = Ok st' -> (total_sleep w + 2 <= total_sleep w')%Z).
Proof.
  destruct doc as [doc_id doc_data]. unfold process_doc, bind.
  destruct (enrich E doc_data api_key w) as [[doc'|e] w1] eqn:Hen;
    destruct (enrich_world _ _ _ _ _ Hen) as (k & Hk & Hc & Hs & Hcalls);
    pose proof (backoff_sum k) as Hsum.
  2:{ intros [= <- <-]. unfold total_sleep at 2 3. rewrite Hs, total_sleep_app.
      repeat split; try lia. discriminate. }
  assert (Hw1 : total_sleep w1 = (total_sleep w + fold_right Z.add 0 (firstn k [5; 10]))%Z).
  { unfold total_sleep at 1. now rewrite Hs, total_sleep_app. }
  assert (Hpaused : forall w2,
             calls w2 = calls w1 -> sleeps w2 = sleeps w1 ++ [2%Z] ->
             (calls w <= calls w2 <= calls w + 3)%nat /\
             (total_sleep w + 2 <= total_sleep w2 <= total_sleep w + 17)%Z).
  { intros w2 Hcalls2 Hsleeps2. split; [lia|].
    unfold total_sleep at 2 3. rewrite Hsleeps2, total_sleep_app. simpl. lia. }
  rewrite stage_eq. destruct (batch_set E doc_id doc') as [e|].
  { intros [= <- <-]. rewrite Hw1. repeat split; try lia. discriminate. }
  unfold sleep, commit_if_full, bind, commit, ret.
  match goal with |- context [(400 <=? ?n)%nat] => destruct (400 <=? n)%nat end.
  - destruct (batch_commit E _ _) as [e|]; intros [= <- <-];
      match goal with
      | |- (_ <= calls ?w2 <= _)%nat /\ _ =>
          destruct (Hpaused w2 eq_refl eq_refl) as (Hcalls2 & Hsleep2)
      end;
      (split; [exact Hcalls2|]); (split; [lia|]); intros; lia.
  - intros [= <- <-].
    destruct (Hpaused (slept 2 w1) eq_refl eq_refl) as (Hcalls2 & Hsleep2).
    split; [exact Hcalls2|]. split; [lia|]. intros; lia.
Qed.

(** The loop: three calls a record at most, 17 seconds a record at most,
    and 2 seconds a record at least when the loop reaches the end. *)
Lemma for_docs_cost api_key docs :
  forall st w r w',
    for_docs E api_key docs st w = (r, w') ->
    (calls w <= calls w' <= calls w + 3 * length docs)%nat /\
    (total_sleep w <= total_sleep w' <= total_sleep w + 17 * Z.of_nat (length docs))%Z /\
    (forall st', r = Ok st' ->
       (total_sleep w + 2 * Z.of_nat (length docs) <= total_sleep w')%Z).
Proof.
  induction docs as [|doc rest IH]; intros st w r w'.
  - unfold for_docs, ret. intros [= <- <-]. simpl. repeat split; try lia; intros; lia.
  - cbn [for_docs]. unfold bind.
    destruct (process_doc E api_key st doc w) as [[st1|e] w1] eqn:Hstep;
      destruct (process_doc_cost _ _ _ _ _ _ Hstep) as (Hc & Hs & Hok).
    + intros Hrest. destruct (IH _ _ _ _ Hrest) as (Hc' & Hs' & Hok').
      specialize (Hok st1 eq_refl). cbn [length].
      repeat split; try lia. intros st' ->. specialize (Hok' st' eq_refl). lia.
    + intros [= <- <-]. cbn [length]. repeat split; try lia. discriminate.
Qed.

(** A loop that raises: the batches committed on the way hold 400 writes
    each and, followed by the writes [rem] that were staged and not
    committed, are the batch the loop started with followed by one write
    for each record of a prefix of the stream. *)
Lemma for_docs_raise_spec api_key docs :
  forall st w e w',
    loop_inv st ->
    for_docs E api_key docs st w = (Raise e, w') ->
    exists new staged rem,
      commits w' = commits w ++ new /\
      Forall (fun b => length b = 400%nat) new /\
      concat new ++ rem = batch st ++ staged /\
      Forall2 (staged_for E api_key) (firstn (length staged) docs) staged.
Proof.
  induction docs as [|doc rest IH]; intros st w e w' Hinv; [discriminate|].
  cbn [for_docs]. unfold bind.
  pose proof (process_doc_spec E api_key st doc w Hinv) as Hstep.
  destruct (process_doc E api_key st doc w) as [[st1|e1] w1].
  2:{ intros [= <- <-]. exists [], [], (batch st). rewrite !app_nil_r.
      repeat split; [exact Hstep | constructor | constructor]. }
  destruct Hstep as (wr & Hwr & Hinv1 & _ & Hcase).
  intros Hrest.
  destruct (IH _ _ _ _ Hinv1 Hrest) as (new & staged & rem & Hc & Hnew & Hcat & Hst).
  destruct Hcase as [(_ & Hb & Hc1) | (H400 & Hb & Hc1)].
  - exists new, (wr :: staged), rem.
    split; [now rewrite Hc, Hc1|]. split; [assumption|].
    split; [rewrite Hcat, Hb, <- app_assoc; reflexivity|].
    cbn [length firstn]. now constructor.
  - exists ((batch st ++ [wr]) :: new), (wr :: staged), rem.
    split; [rewrite Hc, Hc1, <- app_assoc; reflexivity|].
    split.
    { constructor; [|assumption]. rewrite length_app. simpl.
      destruct Hinv as [Hl _]. lia. }
    split; [cbn [concat]; rewrite <- !app_assoc, Hcat, Hb; reflexivity|].
    cbn [length firstn]. now constructor.
Qed.

(** What ends a loop is an [AttributeError] of [enrich], an exception of
    [batch.set] or an exception of [batch.commit()]. *)
Lemma for_docs_raise_cause api_key docs :
  forall st w e w',
    for_docs E api_key docs st w = (Raise e, w') ->
    (exists n b, batch_commit E n b = Some e) \/
    (exists doc_id doc_data, batch_set E doc_id doc_data = Some e) \/
    (exists a, e = attribute_error a "get" \/ e = attribute_error a "upper").
Proof.
  induction docs as [|doc rest IH]; intros st w e w'; [discriminate|].
  cbn [for_docs]. unfold bind.
  destruct (process_doc E api_key st doc w) as [[st1|e1] w1] eqn:Hstep;
    [apply IH|].
  intros [= <- <-]. destruct doc as [doc_id doc_data].
  unfold process_doc, bind in Hstep.
  destruct (enrich E doc_data api_key w) as [[doc'|e2] w2] eqn:Hen.
  - rewrite stage_eq in Hstep.
    destruct (batch_set E doc_id doc') as [e3|] eqn:Hset.
    { injection Hstep as <- _. right. left. eauto. }
    unfold sleep, commit_if_full, bind, commit, ret in Hstep.
    match type of Hstep with
    | context [(400 <=? ?n)%nat] => destruct (400 <=? n)%nat; [|discriminate]
    end.
    destruct (batch_commit E _ _) as [e3|] eqn:Hcommit; [|discriminate].
    injection Hstep as <- _. left. eauto.
  - injection Hstep as <- _. right. right.
    destruct (enrich_raise_inv E _ _ _ _ _ Hen)
      as (a & _ & _ & _ & [[_ ->] | (d & _ & _ & ->)]); eauto.
Qed.

End RunFacts.

Lemma committed_prefix (E : externals) api_key new staged rem docs :
  Forall (fun b => length b = 400%nat) new ->
  concat new ++ rem = staged ->
  Forall2 (staged_for E api_key) (firstn (length staged) docs) staged ->
  (400 * length new <= length docs)%nat /\
  Forall2 frames (firstn (400 * length new) docs) (concat new).
Proof.
  intros Hnew Hcat Hst.
  destruct (map_length_full new Hnew) as [_ Hsize].
  pose proof (Forall2_length _ _ _ Hst) as Hlen.
  rewrite length_take in Hlen.
  assert (Hle : (400 * length new <= length staged)%nat).
  { rewrite <- Hcat, length_app, Hsize. lia. }
  split; [lia|].
  apply (Forall2_take _ _ _ (400 * length new)) in Hst.
  rewrite take_take, Nat.min_l in Hst by lia.
  rewrite <- Hcat, <- Hsize, take_app_length in Hst.
  rewrite Hsize in Hst.
  eapply Forall2_impl; [exact Hst|]. intros src wr. apply staged_for_frames.
Qed.

(** X13: a run that fails keeps what it has committed and loses the rest:
    the batches committed hold 400 writes each, they are the writes for
    the first [400 * j] records of the stream, in order, and nothing is
    committed for the records after them, those already staged
    included. *)
Theorem X13_failed_run_keeps_full_batches_only (E : externals) method docs w e w' :
  process_denuncias E method docs w = (Failed e, w') ->
  exists new,
    commits w' = commits w ++ new /\
    Forall (fun b => length b = 400%nat) new /\
    (400 * length new <= length docs)%nat /\
    Forall2 frames (firstn (400 * length new) docs) (concat new).
Proof.
  unfold process_denuncias.
  destruct (method =? "GET"); [discriminate|].
  unfold run.
  destruct (negb (py_truthy (get_gemini_api_key E))); [discriminate|].
  unfold bind.
  assert (Hinit : loop_inv (mkloop [] 0 0)) by (split; simpl; lia).
  destruct (for_docs E (get_gemini_api_key E) docs (mkloop [] 0 0) w)
    as [[st|e1] w1] eqn:Hloop.
  - pose proof (for_docs_spec E (get_gemini_api_key E) docs _ w Hinit) as Hspec.
    rewrite Hloop in Hspec.
    destruct Hspec as (new & staged & Hc & Hnew & Hcat & Hst & _ & _).
    cbn [batch app] in Hcat.
    assert (Hlost : commits w' = commits w1 ->
                    exists new,
                      commits w' = commits w ++ new /\
                      Forall (fun b => length b = 400%nat) new /\
                      (400 * length new <= length docs)%nat /\
                      Forall2 frames (firstn (400 * length new) docs) (concat new)).
    { intros ->. exists new. split; [exact Hc|]. split; [exact Hnew|].
      apply (committed_prefix E (get_gemini_api_key E) new staged (batch st));
        [exact Hnew | exact Hcat|].
      rewrite take_ge; [exact Hst|]. rewrite (Forall2_length _ _ _ Hst). lia. }
    destruct (stream_error E) as [e1|]; cbn [run_setup raise ret].
    { intros [= <- <-]. now apply Hlost. }
    destruct (0 <? batch_count st)%nat; [|discriminate].
    unfold commit.
    destruct (batch_commit E (length (commits w1)) (batch st)); [|discriminate].
    intros [= <- <-]. now apply Hlost.
  - intros [= <- <-].
    destruct (for_docs_raise_spec E _ _ _ _ _ _ Hinit Hloop)
      as (new & staged & rem & Hc & Hnew & Hcat & Hst).
    cbn [batch app] in Hcat.
    exists new. split; [exact Hc|]. split; [exact Hnew|].
    now apply (committed_prefix E (get_gemini_api_key E) new staged rem).
Qed.

Lemma X13_failed_run_keeps_full_batches_only_witness :
  let run :=
    process_denuncias (Double.externals_of 0 "[1]") "POST"
      Double.stream_then_transcript Double.w0 in
  fst run = Failed "'list' object has no attribute 'get'" /\
  exists new,
    commits (snd run) = commits Double.w0 ++ new /\
    Forall (fun b => length b = 400%nat) new /\
    (400 * length new <= length Double.stream_then_transcript)%nat /\
    Forall2 frames (firstn (400 * length new) Double.stream_then_transcript)
      (concat new).
Proof.
  intros run.
  assert (Hrun : fst run = Failed "'list' object has no attribute 'get'")
    by (vm_compute; reflexivity).
  split; [exact Hrun|].
  apply (X13_failed_run_keeps_full_batches_only (Double.externals_of 0 "[1]") "POST"
           Double.stream_then_transcript Double.w0
           "'list' object has no attribute 'get'" (snd run)).
  rewrite <- Hrun. apply surjective_pairing.
Defined.

(** X14: a run calls the model three times a record at most and sleeps 17
    seconds a record at most (the pause of 2 and the delays 5 and 10); a
    run that completes has slept 2 seconds a record at least. *)
Theorem X14_run_cost (E : externals) method docs w r w' :
  process_denuncias E method docs w = (r, w') ->
  (calls w <= calls w' <= calls w + 3 * length docs)%nat /\
  (total_sleep w <= total_sleep w' <= total_sleep w + 17 * Z.of_nat (length docs))%Z /\
  (forall n, r = Complete n ->
     (total_sleep w + 2 * Z.of_nat (length docs) <= total_sleep w')%Z).
Proof.
  unfold process_denuncias.
  destruct (method =? "GET").
  { intros [= <- <-]. repeat split; try lia. discriminate. }
  unfold run.
  destruct (negb (py_truthy (get_gemini_api_key E))).
  { unfold ret. intros [= <- <-]. repeat split; try lia. discriminate. }
  unfold bind.
  destruct (for_docs E (get_gemini_api_key E) docs (mkloop [] 0 0) w)
    as [[st|e1] w1] eqn:Hloop;
    destruct (for_docs_cost E _ _ _ _ _ _ Hloop) as (Hcalls & Hsleep & Hok).
  2:{ intros [= <- <-]. repeat split; try lia. discriminate. }
  specialize (Hok st eq_refl).
  destruct (stream_error E) as [e1|]; cbn [run_setup raise ret].
  { intros [= <- <-]. repeat split; intros; lia. }
  destruct (0 <? batch_count st)%nat; unfold commit, ret.
  - destruct (batch_commit E (length (commits w1)) (batch st));
      intros [= <- <-]; repeat split; try lia; try discriminate;
      change (total_sleep (mkworld (calls w1) (sleeps w1) (commits w1 ++ [batch st])))
        with (total_sleep w1); cbn [calls]; try lia; intros; lia.
  - intros [= <- <-]. repeat split; try lia; intros; lia.
Qed.

Lemma X14_run_cost_witness :
  let run :=
    process_denuncias (Double.externals_of 3 Double.anonymous_json) "POST"
      [("a1", Double.with_transcript); ("a2", Double.without_transcript)] Double.w0 in
  (calls Double.w0 <= calls (snd run) <= calls Double.w0 + 3 * 2)%nat /\
  (total_sleep Double.w0 <= total_sleep (snd run) <= total_sleep Double.w0 + 17 * 2)%Z /\
  (forall n, fst run = Complete n -> (total_sleep Double.w0 + 2 * 2 <= total_sleep (snd run))%Z) /\
  fst run = Complete 2 /\ calls (snd run) = 3%nat /\ total_sleep (snd run) = 19%Z.
Proof.
  intros run.
  destruct (X14_run_cost (Double.externals_of 3 Double.anonymous_json) "POST"
              [("a1", Double.with_transcript); ("a2", Double.without_transcript)]
              Double.w0 (fst run) (snd run) (surjective_pairing run))
    as (H1 & H2 & H3).
  split; [exact H1|]. split; [exact H2|]. split; [exact H3|].
  vm_compute. repeat split; reflexivity.
Defined.

Section QuietRuns.

Context (E : externals).

Local Arguments Nat.leb : simpl never.

(** The loop over records without transcript, with a client that stages
    every record and a store that accepts every commit: it reaches the
    end, calls nobody and pauses once a record. *)
Lemma for_docs_without_transcript api_key docs :
  Forall (fun doc => py_truthy (dict_get (snd doc) "Transcript" (PStr "")) = false) docs ->
  (forall doc_id doc_data, batch_set E doc_id doc_data = None) ->
  (forall n b, batch_commit E n b = None) ->
  forall st w,
    exists st' w',
      for_docs E api_key docs st w = (Ok st', w') /\
      calls w' = calls w /\
      sleeps w' = sleeps w ++ repeat 2%Z (length docs).
Proof.
  intros Hdocs Hset Hstore.
  induction Hdocs as [|[doc_id doc_data] rest Hdoc _ IH]; intros st w.
  - exists st, w. cbn [length repeat]. rewrite app_nil_r. now repeat split.
  - cbn [snd] in Hdoc. cbn [for_docs]. unfold bind at 1.
    assert (Hstep : exists st1 w1,
               process_doc E api_key st (doc_id, doc_data) w = (Ok st1, w1) /\
               calls w1 = calls w /\ sleeps w1 = sleeps w ++ [2%Z]).
    { unfold process_doc, bind, enrich. rewrite Hdoc. unfold ret at 1.
      rewrite stage_eq, Hset.
      unfold sleep, commit_if_full, bind, commit, ret.
      match goal with |- context [(400 <=? ?n)%nat] => destruct (400 <=? n)%nat end.
      - rewrite Hstore. eexists. eexists. now repeat split.
      - eexists. eexists. now repeat split. }
    destruct Hstep as (st1 & w1 & -> & Hcalls & Hsleeps).
    destruct (IH st1 w1) as (st' & w' & -> & Hcalls' & Hsleeps').
    exists st', w'. split; [reflexivity|]. split; [congruence|].
    rewrite Hsleeps', Hsleeps, <- app_assoc. reflexivity.
Qed.

End QuietRuns.

(** X15: over a stream in which no record has a truthy transcript, with a
    key, a source stream that does not fail, a client that stages every
    record and a store that accepts every commit, a run completes: it
    answers the number of records, never calls the model, and sleeps the
    pause of 2 once for each record and nothing else. *)
Theorem X15_run_without_transcripts_completes (E : externals) method docs w :
  method <> "GET" ->
  py_truthy (get_gemini_api_key E) = true ->
  Forall (fun doc => py_truthy (dict_get (snd doc) "Transcript" (PStr "")) = false) docs ->
  stream_error E = None ->
  (forall doc_id doc_data, batch_set E doc_id doc_data = None) ->
  (forall n b, batch_commit E n b = None) ->
  exists w',
    process_denuncias E method docs w = (Complete (length docs), w') /\
    calls w' = calls w /\
    sleeps w' = sleeps w ++ repeat 2%Z (length docs).
Proof.
  intros Hm Hkey Hdocs Hstream Hset Hstore.
  unfold process_denuncias. apply String.eqb_neq in Hm. rewrite Hm.
  unfold run. rewrite Hkey, Hstream. cbn [negb run_setup]. unfold bind.
  destruct (for_docs_without_transcript E (get_gemini_api_key E) docs Hdocs Hset Hstore
              (mkloop [] 0 0) w) as (st & w1 & Hloop & Hcalls & Hsleeps).
  assert (Hinit : loop_inv (mkloop [] 0 0)) by (split; simpl; lia).
  pose proof (for_docs_spec E (get_gemini_api_key E) docs _ w Hinit) as Hspec.
  rewrite Hloop in Hspec. destruct Hspec as (_ & _ & _ & _ & _ & _ & _ & Hpc).
  rewrite Hloop. cbn [processed_count] in Hpc. simpl in Hpc. rewrite Hpc.
  destruct (0 <? batch_count st)%nat; unfold commit, ret.
  - rewrite Hstore. eexists. split; [reflexivity|]. now split.
  - eexists. split; [reflexivity|]. now split.
Qed.

Lemma X15_run_without_transcripts_completes_witness :
  exists w',
    process_denuncias Double.broken "POST" (Double.stream 3) Double.w0
    = (Complete (length (Double.stream 3)), w') /\
    calls w' = calls Double.w0 /\
    sleeps w' = sleeps Double.w0 ++ repeat 2%Z (length (Double.stream 3)).
Proof.
  apply (X15_run_without_transcripts_completes Double.broken "POST"
           (Double.stream 3) Double.w0).
  - discriminate.
  - reflexivity.
  - repeat constructor.
  - reflexivity.
  - reflexivity.
  - reflexivity.
Defined.

(** X16: what ends a run with the answer 500 "Error procesando" is an
    exception of the source stream, an exception of [batch.set] on a
    record it cannot stage, an exception of [batch.commit()], or an
    [AttributeError] on an ill-shaped answer of the model (no [get], no
    [upper]). *)
Theorem X16_what_ends_a_run (E : externals) method docs w e w' :
  process_denuncias E method docs w = (Failed e, w') ->
  stream_error E = Some e \/
  (exists doc_id doc_data, batch_set E doc_id doc_data = Some e) \/
  (exists n b, batch_commit E n b = Some e) \/
  (exists a, e = attribute_error a "get" \/ e = attribute_error a "upper").
Proof.
  unfold process_denuncias.
  destruct (method =? "GET"); [discriminate|].
  unfold run.
  destruct (negb (py_truthy (get_gemini_api_key E))); [discriminate|].
  unfold bind.
  destruct (for_docs E (get_gemini_api_key E) docs (mkloop [] 0 0) w)
    as [[st|e1] w1] eqn:Hloop.
  - destruct (stream_error E) as [e1|]; cbn [run_setup raise ret].
    { intros [= <- <-]. now left. }
    destruct (0 <? batch_count st)%nat; [|discriminate].
    unfold commit.
    destruct (batch_commit E (length (commits w1)) (batch st)) as [e2|] eqn:Hcommit;
      [|discriminate].
    intros [= <- <-]. right. right. left. eauto.
  - intros [= <- <-].
    destruct (for_docs_raise_cause E _ _ _ _ _ _ Hloop) as [H | [H | H]]; auto.
Qed.

Lemma X16_what_ends_a_run_witness :
  stream_error Double.narrow = Some Double.out_of_range \/
  (exists doc_id doc_data,
      batch_set Double.narrow doc_id doc_data = Some Double.out_of_range) \/
  (exists n b, batch_commit Double.narrow n b = Some Double.out_of_range) \/
  (exists a, Double.out_of_range = attribute_error a "get"
             \/ Double.out_of_range = attribute_error a "upper").
Proof.
  apply (X16_what_ends_a_run Double.narrow "POST"
           [("a1", Double.with_transcript)] Double.w0
           Double.out_of_range (mkworld 1 [] [])).
  vm_compute. reflexivity.
Defined.

(** X17: the record on which [enrich] raises ends the run: the answer is
    the 500 with that exception, the records after it are not looked at,
    and the writes staged since the last commit are not committed. *)
Theorem X17_run_ends_at_the_record_that_raises (E : externals)
    method before doc_id doc_data after w st1 w1 e w2 :
  let api_key := get_gemini_api_key E in
  method <> "GET" ->
  py_truthy api_key = true ->
  for_docs E api_key before (mkloop [] 0 0) w = (Ok st1, w1) ->
  enrich E doc_data api_key w1 = (Raise e, w2) ->
  process_denuncias E method (before ++ (doc_id, doc_data) :: after) w = (Failed e, w2) /\
  commits w2 = commits w1.
Proof.
  intros api_key Hm Hkey Hbefore Hraise. split.
  - unfold process_denuncias. apply String.eqb_neq in Hm. rewrite Hm.
    unfold run. fold api_key. rewrite Hkey. cbn [negb]. unfold bind at 1.
    rewrite for_docs_app, Hbefore. cbn [for_docs]. unfold bind at 1.
    unfold process_doc, bind. now rewrite Hraise.
  - pose proof (keeps_enrich E doc_data api_key w1) as Hkeep.
    now rewrite Hraise in Hkeep.
Qed.

Lemma X17_run_ends_at_the_record_that_raises_witness :
  process_denuncias (Double.externals_of 0 "[1]") "POST"
    (Double.stream 2 ++ ("a1", Double.with_transcript) :: Double.stream 5) Double.w0
  = (Failed "'list' object has no attribute 'get'", mkworld 1 [2; 2]%Z []) /\
  commits (mkworld 1 [2; 2]%Z []) = commits (mkworld 0 [2; 2]%Z []).
Proof.
  eapply (X17_run_ends_at_the_record_that_raises (Double.externals_of 0 "[1]") "POST"
            (Double.stream 2) "a1" Double.with_transcript (Double.stream 5) Double.w0).
  - discriminate.
  - reflexivity.
  - vm_compute. reflexivity.
  - reflexivity.
Defined.

(** ** What the model is asked *)

Section PromptFacts.

Context (E1 E2 : externals).

Lemma retry_loop_ext text report_date day attempts :
  let p := mkprompt text report_date day in
  forall delay w,
    (forall i, (i < length attempts)%nat ->
       attempt_result E1 p (calls w + i) = attempt_result E2 p (calls w + i)) ->
    retry_loop E1 text report_date day attempts delay w
    = retry_loop E2 text report_date day attempts delay w.
Proof.
  intros p. induction attempts as [|attempt rest IH]; intros delay w Hsame;
    [reflexivity|].
  rewrite !retry_loop_cons. fold p.
  pose proof (Hsame 0%nat ltac:(simpl; lia)) as H0. rewrite Nat.add_0_r in H0.
  rewrite H0.
  destruct (attempt_result E2 p (calls w)) as [v|e]; [reflexivity|].
  destruct (rate_limited e && (attempt <? max_retries - 1)%nat); [|reflexivity].
  apply IH. intros i Hi. cbn [slept called calls].
  replace (S (calls w) + i)%nat with (calls w + S i)%nat by lia.
  apply Hsame. simpl. lia.
Qed.

Lemma set_extracted_ext doc_data v w :
  str_upper E1 = str_upper E2 ->
  set_extracted E1 doc_data v w = set_extracted E2 doc_data v w.
Proof.
  intros Hup. unfold set_extracted, py_upper, bind. now rewrite Hup.
Qed.

End PromptFacts.

(** X18: for a record, the model is asked with one prompt only, made of
    the record's [Transcript], of its [Date] (or "Fecha desconocida" when
    the record has none) and of the weekday label of that date, and on
    the next three calls at most: two models that agree on that prompt on
    these three calls give the same enriched record and the same world,
    whatever they say to other prompts or on other calls. *)
Theorem X18_model_is_asked_one_prompt (E1 E2 : externals) doc_data api_key w :
  let transcript := dict_get doc_data "Transcript" (PStr "") in
  let report_date := dict_get doc_data "Date" (PStr "Fecha desconocida") in
  let p := mkprompt transcript report_date (day_of_week_str report_date) in
  genai_setup E1 = genai_setup E2 ->
  json_loads E1 = json_loads E2 ->
  str_upper E1 = str_upper E2 ->
  (forall i, (i < 3)%nat ->
     generate_content E1 (calls w + i) p = generate_content E2 (calls w + i) p) ->
  enrich E1 doc_data api_key w = enrich E2 doc_data api_key w.
Proof.
  intros transcript report_date p Hsetup Hjson Hup Hmodel.
  assert (Hx : synthesize_and_extract E1 transcript report_date api_key w
               = synthesize_and_extract E2 transcript report_date api_key w).
  { unfold synthesize_and_extract.
    destruct (negb (py_truthy api_key)); [reflexivity|].
    unfold try_except, guarded_attempts, bind. rewrite Hsetup.
    destruct (genai_setup E2 api_key); [reflexivity|]. cbn [run_setup ret].
    cbn [seq max_retries].
    rewrite (retry_loop_ext E1 E2 transcript report_date (day_of_week_str report_date)
               [0; 1; 2]%nat 5%Z w); [reflexivity|].
    intros i Hi. unfold attempt_result. fold p.
    rewrite (Hmodel i Hi), Hjson. reflexivity. }
  unfold enrich. fold transcript report_date.
  destruct (py_truthy transcript); [|reflexivity].
  unfold bind. rewrite Hx.
  destruct (synthesize_and_extract E2 transcript report_date api_key w) as [[v|e] w1];
    [|reflexivity].
  destruct (py_truthy v); [|reflexivity].
  now apply set_extracted_ext.
Qed.

Lemma X18_model_is_asked_one_prompt_witness :
  enrich Double.mondays_only Double.with_transcript Double.api_key Double.w0
  = enrich (Double.externals_of 1 Double.anonymous_json) Double.with_transcript
      Double.api_key Double.w0.
Proof.
  apply (X18_model_is_asked_one_prompt Double.mondays_only
           (Double.externals_of 1 Double.anonymous_json) Double.with_transcript
           Double.api_key Double.w0); reflexivity.
Defined.
